(** * Document-to-Markdown converters: a shallow embedding

    The three scripts [pdf_ocr_to_markdown.py], [pptx_to_markdown.py] and
    [xlsx_to_markdown.py] are embedded as pure functions.  A Python [str]
    is a list of Unicode code points; a call that may raise returns a
    [result]; the objects handed over by PyMuPDF, python-pptx and openpyxl
    are records holding what the scripts read from them. *)

From Stdlib Require Import String Ascii.
From Stdlib Require Import NArith ZArith Bool Lia List.
Import ListNotations.

Set Implicit Arguments.

(** ** Python strings *)

Definition char := N.
Definition pystr := list char.

(** A literal of the source, as code points. *)
Definition py (s : string) : pystr :=
  map N_of_ascii (list_ascii_of_string s).

Definition NL : char := 10%N.
Definition SP : char := 32%N.
Definition PIPE : char := 124%N.
Definition BACKSLASH : char := 92%N.

(** [str.isspace] on one code point: the white space that [str.strip()]
    and [str.split()] remove. *)
Definition is_space (c : char) : bool :=
  ((9 <=? c) && (c <=? 13) || (28 <=? c) && (c <=? 32)
   || (c =? 133) || (c =? 160) || (c =? 5760)
   || (8192 <=? c) && (c <=? 8202)
   || (c =? 8232) || (c =? 8233) || (c =? 8239) || (c =? 8287)
   || (c =? 12288))%N.

(** Truth value of a string: [if s], [if not s]. *)
Definition truthy (s : pystr) : bool :=
  match s with [] => false | _ :: _ => true end.

Fixpoint lstrip (s : pystr) : pystr :=
  match s with
  | [] => []
  | c :: s' => if is_space c then lstrip s' else s
  end.

Definition rstrip (s : pystr) : pystr := rev (lstrip (rev s)).

(** [s.strip()] *)
Definition strip (s : pystr) : pystr := rstrip (lstrip s).

(** [sep.join(parts)] *)
Fixpoint join (sep : pystr) (parts : list pystr) : pystr :=
  match parts with
  | [] => []
  | [p] => p
  | p :: rest => p ++ sep ++ join sep rest
  end.

(** [s.split(c)] for a separator of one character: never the empty list. *)
Fixpoint split_on (c : char) (s : pystr) : list pystr :=
  match s with
  | [] => [[]]
  | x :: s' =>
      if (x =? c)%N then [] :: split_on c s'
      else match split_on c s' with
           | [] => [[x]]
           | w :: ws => (x :: w) :: ws
           end
  end.

(** [s.split()]: the maximal runs of characters that are not white space. *)
Fixpoint split_ws (s : pystr) : list pystr :=
  match s with
  | [] => []
  | x :: s' =>
      if is_space x then split_ws s'
      else match s' with
           | [] => [[x]]
           | y :: _ =>
               if is_space y then [x] :: split_ws s'
               else match split_ws s' with
                    | [] => [[x]]
                    | w :: ws => (x :: w) :: ws
                    end
           end
  end.

(** [s.replace(c, new)] for a pattern of one character. *)
Definition replace (c : char) (new : pystr) (s : pystr) : pystr :=
  flat_map (fun x => if (x =? c)%N then new else [x]) s.


Fixpoint str_eqb (a b : pystr) : bool :=
  match a, b with
  | [], [] => true
  | x :: a', y :: b' => (x =? y)%N && str_eqb a' b'
  | _, _ => false
  end.

(** [s.endswith(suf)] *)
Definition endswith (suf s : pystr) : bool :=
  (length suf <=? length s)
  && str_eqb (skipn (length s - length suf) s) suf.

(** *** Case mappings

    [str.lower()] and [str.title()] follow the case data of the Unicode
    character database (version 14.0, that of CPython 3.11): the cased and
    the case-ignorable code points as ranges, the one-to-one mappings as
    runs (first, last, step, image of the first), the mappings to several
    code points one by one. *)

Definition in_ranges (ranges : list (N * N)) (c : char) : bool :=
  existsb (fun r => (fst r <=? c) && (c <=? snd r))%N ranges.

Fixpoint map_run (runs : list (N * N * N * N)) (c : char) : option char :=
  match runs with
  | [] => None
  | (lo, hi, step, image) :: rest =>
      if ((lo <=? c) && (c <=? hi) && ((c - lo) mod step =? 0))%N
      then Some (image + (c - lo))%N
      else map_run rest c
  end.

Fixpoint map_special (table : list (N * pystr)) (c : char) : option pystr :=
  match table with
  | [] => None
  | (k, image) :: rest => if (k =? c)%N then Some image else map_special rest c
  end.

Definition cased_ranges : list (N * N) :=
  [
   (65, 90); (97, 122); (170, 170); (181, 181);
   (186, 186); (192, 214); (216, 246); (248, 442);
   (444, 447); (452, 659); (661, 696); (704, 705);
   (736, 740); (837, 837); (880, 883); (886, 887);
   (890, 893); (895, 895); (902, 902); (904, 906);
   (908, 908); (910, 929); (931, 1013); (1015, 1153);
   (1162, 1327); (1329, 1366); (1376, 1416); (4256, 4293);
   (4295, 4295); (4301, 4301); (4304, 4346); (4349, 4351);
   (5024, 5109); (5112, 5117); (7296, 7304); (7312, 7354);
   (7357, 7359); (7424, 7615); (7680, 7957); (7960, 7965);
   (7968, 8005); (8008, 8013); (8016, 8023); (8025, 8025);
   (8027, 8027); (8029, 8029); (8031, 8061); (8064, 8116);
   (8118, 8124); (8126, 8126); (8130, 8132); (8134, 8140);
   (8144, 8147); (8150, 8155); (8160, 8172); (8178, 8180);
   (8182, 8188); (8305, 8305); (8319, 8319); (8336, 8348);
   (8450, 8450); (8455, 8455); (8458, 8467); (8469, 8469);
   (8473, 8477); (8484, 8484); (8486, 8486); (8488, 8488);
   (8490, 8493); (8495, 8500); (8505, 8505); (8508, 8511);
   (8517, 8521); (8526, 8526); (8544, 8575); (8579, 8580);
   (9398, 9449); (11264, 11492); (11499, 11502); (11506, 11507);
   (11520, 11557); (11559, 11559); (11565, 11565); (42560, 42605);
   (42624, 42653); (42786, 42887); (42891, 42894); (42896, 42954);
   (42960, 42961); (42963, 42963); (42965, 42969); (42997, 42998);
   (43000, 43002); (43824, 43866); (43868, 43880); (43888, 43967);
   (64256, 64262); (64275, 64279); (65313, 65338); (65345, 65370);
   (66560, 66639); (66736, 66771); (66776, 66811); (66928, 66938);
   (66940, 66954); (66956, 66962); (66964, 66965); (66967, 66977);
   (66979, 66993); (66995, 67001); (67003, 67004); (67456, 67456);
   (67459, 67461); (67463, 67504); (67506, 67514); (68736, 68786);
   (68800, 68850); (71840, 71903); (93760, 93823); (119808, 119892);
   (119894, 119964); (119966, 119967); (119970, 119970); (119973, 119974);
   (119977, 119980); (119982, 119993); (119995, 119995); (119997, 120003);
   (120005, 120069); (120071, 120074); (120077, 120084); (120086, 120092);
   (120094, 120121); (120123, 120126); (120128, 120132); (120134, 120134);
   (120138, 120144); (120146, 120485); (120488, 120512); (120514, 120538);
   (120540, 120570); (120572, 120596); (120598, 120628); (120630, 120654);
   (120656, 120686); (120688, 120712); (120714, 120744); (120746, 120770);
   (120772, 120779); (122624, 122633); (122635, 122654); (125184, 125251);
   (127280, 127305); (127312, 127337); (127344, 127369)
  ]%N.

Definition case_ignorable_ranges : list (N * N) :=
  [
   (39, 39); (46, 46); (58, 58); (94, 94);
   (96, 96); (168, 168); (173, 173); (175, 175);
   (180, 180); (183, 184); (688, 879); (884, 885);
   (890, 890); (900, 901); (903, 903); (1155, 1161);
   (1369, 1369); (1375, 1375); (1425, 1469); (1471, 1471);
   (1473, 1474); (1476, 1477); (1479, 1479); (1524, 1524);
   (1536, 1541); (1552, 1562); (1564, 1564); (1600, 1600);
   (1611, 1631); (1648, 1648); (1750, 1757); (1759, 1768);
   (1770, 1773); (1807, 1807); (1809, 1809); (1840, 1866);
   (1958, 1968); (2027, 2037); (2042, 2042); (2045, 2045);
   (2070, 2093); (2137, 2139); (2184, 2184); (2192, 2193);
   (2200, 2207); (2249, 2306); (2362, 2362); (2364, 2364);
   (2369, 2376); (2381, 2381); (2385, 2391); (2402, 2403);
   (2417, 2417); (2433, 2433); (2492, 2492); (2497, 2500);
   (2509, 2509); (2530, 2531); (2558, 2558); (2561, 2562);
   (2620, 2620); (2625, 2626); (2631, 2632); (2635, 2637);
   (2641, 2641); (2672, 2673); (2677, 2677); (2689, 2690);
   (2748, 2748); (2753, 2757); (2759, 2760); (2765, 2765);
   (2786, 2787); (2810, 2815); (2817, 2817); (2876, 2876);
   (2879, 2879); (2881, 2884); (2893, 2893); (2901, 2902);
   (2914, 2915); (2946, 2946); (3008, 3008); (3021, 3021);
   (3072, 3072); (3076, 3076); (3132, 3132); (3134, 3136);
   (3142, 3144); (3146, 3149); (3157, 3158); (3170, 3171);
   (3201, 3201); (3260, 3260); (3263, 3263); (3270, 3270);
   (3276, 3277); (3298, 3299); (3328, 3329); (3387, 3388);
   (3393, 3396); (3405, 3405); (3426, 3427); (3457, 3457);
   (3530, 3530); (3538, 3540); (3542, 3542); (3633, 3633);
   (3636, 3642); (3654, 3662); (3761, 3761); (3764, 3772);
   (3782, 3782); (3784, 3789); (3864, 3865); (3893, 3893);
   (3895, 3895); (3897, 3897); (3953, 3966); (3968, 3972);
   (3974, 3975); (3981, 3991); (3993, 4028); (4038, 4038);
   (4141, 4144); (4146, 4151); (4153, 4154); (4157, 4158);
   (4184, 4185); (4190, 4192); (4209, 4212); (4226, 4226);
   (4229, 4230); (4237, 4237); (4253, 4253); (4348, 4348);
   (4957, 4959); (5906, 5908); (5938, 5939); (5970, 5971);
   (6002, 6003); (6068, 6069); (6071, 6077); (6086, 6086);
   (6089, 6099); (6103, 6103); (6109, 6109); (6155, 6159);
   (6211, 6211); (6277, 6278); (6313, 6313); (6432, 6434);
   (6439, 6440); (6450, 6450); (6457, 6459); (6679, 6680);
   (6683, 6683); (6742, 6742); (6744, 6750); (6752, 6752);
   (6754, 6754); (6757, 6764); (6771, 6780); (6783, 6783);
   (6823, 6823); (6832, 6862); (6912, 6915); (6964, 6964);
   (6966, 6970); (6972, 6972); (6978, 6978); (7019, 7027);
   (7040, 7041); (7074, 7077); (7080, 7081); (7083, 7085);
   (7142, 7142); (7144, 7145); (7149, 7149); (7151, 7153);
   (7212, 7219); (7222, 7223); (7288, 7293); (7376, 7378);
   (7380, 7392); (7394, 7400); (7405, 7405); (7412, 7412);
   (7416, 7417); (7468, 7530); (7544, 7544); (7579, 7679);
   (8125, 8125); (8127, 8129); (8141, 8143); (8157, 8159);
   (8173, 8175); (8189, 8190); (8203, 8207); (8216, 8217);
   (8228, 8228); (8231, 8231); (8234, 8238); (8288, 8292);
   (8294, 8303); (8305, 8305); (8319, 8319); (8336, 8348);
   (8400, 8432); (11388, 11389); (11503, 11505); (11631, 11631);
   (11647, 11647); (11744, 11775); (11823, 11823); (12293, 12293);
   (12330, 12333); (12337, 12341); (12347, 12347); (12441, 12446);
   (12540, 12542); (40981, 40981); (42232, 42237); (42508, 42508);
   (42607, 42610); (42612, 42621); (42623, 42623); (42652, 42655);
   (42736, 42737); (42752, 42785); (42864, 42864); (42888, 42890);
   (42994, 42996); (43000, 43001); (43010, 43010); (43014, 43014);
   (43019, 43019); (43045, 43046); (43052, 43052); (43204, 43205);
   (43232, 43249); (43263, 43263); (43302, 43309); (43335, 43345);
   (43392, 43394); (43443, 43443); (43446, 43449); (43452, 43453);
   (43471, 43471); (43493, 43494); (43561, 43566); (43569, 43570);
   (43573, 43574); (43587, 43587); (43596, 43596); (43632, 43632);
   (43644, 43644); (43696, 43696); (43698, 43700); (43703, 43704);
   (43710, 43711); (43713, 43713); (43741, 43741); (43756, 43757);
   (43763, 43764); (43766, 43766); (43867, 43871); (43881, 43883);
   (44005, 44005); (44008, 44008); (44013, 44013); (64286, 64286);
   (64434, 64450); (65024, 65039); (65043, 65043); (65056, 65071);
   (65106, 65106); (65109, 65109); (65279, 65279); (65287, 65287);
   (65294, 65294); (65306, 65306); (65342, 65342); (65344, 65344);
   (65392, 65392); (65438, 65439); (65507, 65507); (65529, 65531);
   (66045, 66045); (66272, 66272); (66422, 66426); (67456, 67461);
   (67463, 67504); (67506, 67514); (68097, 68099); (68101, 68102);
   (68108, 68111); (68152, 68154); (68159, 68159); (68325, 68326);
   (68900, 68903); (69291, 69292); (69446, 69456); (69506, 69509);
   (69633, 69633); (69688, 69702); (69744, 69744); (69747, 69748);
   (69759, 69761); (69811, 69814); (69817, 69818); (69821, 69821);
   (69826, 69826); (69837, 69837); (69888, 69890); (69927, 69931);
   (69933, 69940); (70003, 70003); (70016, 70017); (70070, 70078);
   (70089, 70092); (70095, 70095); (70191, 70193); (70196, 70196);
   (70198, 70199); (70206, 70206); (70367, 70367); (70371, 70378);
   (70400, 70401); (70459, 70460); (70464, 70464); (70502, 70508);
   (70512, 70516); (70712, 70719); (70722, 70724); (70726, 70726);
   (70750, 70750); (70835, 70840); (70842, 70842); (70847, 70848);
   (70850, 70851); (71090, 71093); (71100, 71101); (71103, 71104);
   (71132, 71133); (71219, 71226); (71229, 71229); (71231, 71232);
   (71339, 71339); (71341, 71341); (71344, 71349); (71351, 71351);
   (71453, 71455); (71458, 71461); (71463, 71467); (71727, 71735);
   (71737, 71738); (71995, 71996); (71998, 71998); (72003, 72003);
   (72148, 72151); (72154, 72155); (72160, 72160); (72193, 72202);
   (72243, 72248); (72251, 72254); (72263, 72263); (72273, 72278);
   (72281, 72283); (72330, 72342); (72344, 72345); (72752, 72758);
   (72760, 72765); (72767, 72767); (72850, 72871); (72874, 72880);
   (72882, 72883); (72885, 72886); (73009, 73014); (73018, 73018);
   (73020, 73021); (73023, 73029); (73031, 73031); (73104, 73105);
   (73109, 73109); (73111, 73111); (73459, 73460); (78896, 78904);
   (92912, 92916); (92976, 92982); (92992, 92995); (94031, 94031);
   (94095, 94111); (94176, 94177); (94179, 94180); (110576, 110579);
   (110581, 110587); (110589, 110590); (113821, 113822); (113824, 113827);
   (118528, 118573); (118576, 118598); (119143, 119145); (119155, 119170);
   (119173, 119179); (119210, 119213); (119362, 119364); (121344, 121398);
   (121403, 121452); (121461, 121461); (121476, 121476); (121499, 121503);
   (121505, 121519); (122880, 122886); (122888, 122904); (122907, 122913);
   (122915, 122916); (122918, 122922); (123184, 123197); (123566, 123566);
   (123628, 123631); (125136, 125142); (125252, 125259); (127995, 127999);
   (917505, 917505); (917536, 917631); (917760, 917999)
  ]%N.

Definition lower_runs : list (N * N * N * N) :=
  [
   (65, 90, 1, 97); (192, 214, 1, 224); (216, 222, 1, 248);
   (256, 302, 2, 257); (306, 310, 2, 307); (313, 327, 2, 314);
   (330, 374, 2, 331); (376, 376, 1, 255); (377, 381, 2, 378);
   (385, 385, 1, 595); (386, 388, 2, 387); (390, 390, 1, 596);
   (391, 391, 1, 392); (393, 394, 1, 598); (395, 395, 1, 396);
   (398, 398, 1, 477); (399, 399, 1, 601); (400, 400, 1, 603);
   (401, 401, 1, 402); (403, 403, 1, 608); (404, 404, 1, 611);
   (406, 406, 1, 617); (407, 407, 1, 616); (408, 408, 1, 409);
   (412, 412, 1, 623); (413, 413, 1, 626); (415, 415, 1, 629);
   (416, 420, 2, 417); (422, 422, 1, 640); (423, 423, 1, 424);
   (425, 425, 1, 643); (428, 428, 1, 429); (430, 430, 1, 648);
   (431, 431, 1, 432); (433, 434, 1, 650); (435, 437, 2, 436);
   (439, 439, 1, 658); (440, 440, 1, 441); (444, 444, 1, 445);
   (452, 452, 1, 454); (453, 453, 1, 454); (455, 455, 1, 457);
   (456, 456, 1, 457); (458, 458, 1, 460); (459, 475, 2, 460);
   (478, 494, 2, 479); (497, 497, 1, 499); (498, 500, 2, 499);
   (502, 502, 1, 405); (503, 503, 1, 447); (504, 542, 2, 505);
   (544, 544, 1, 414); (546, 562, 2, 547); (570, 570, 1, 11365);
   (571, 571, 1, 572); (573, 573, 1, 410); (574, 574, 1, 11366);
   (577, 577, 1, 578); (579, 579, 1, 384); (580, 580, 1, 649);
   (581, 581, 1, 652); (582, 590, 2, 583); (880, 882, 2, 881);
   (886, 886, 1, 887); (895, 895, 1, 1011); (902, 902, 1, 940);
   (904, 906, 1, 941); (908, 908, 1, 972); (910, 911, 1, 973);
   (913, 929, 1, 945); (931, 939, 1, 963); (975, 975, 1, 983);
   (984, 1006, 2, 985); (1012, 1012, 1, 952); (1015, 1015, 1, 1016);
   (1017, 1017, 1, 1010); (1018, 1018, 1, 1019); (1021, 1023, 1, 891);
   (1024, 1039, 1, 1104); (1040, 1071, 1, 1072); (1120, 1152, 2, 1121);
   (1162, 1214, 2, 1163); (1216, 1216, 1, 1231); (1217, 1229, 2, 1218);
   (1232, 1326, 2, 1233); (1329, 1366, 1, 1377); (4256, 4293, 1, 11520);
   (4295, 4295, 1, 11559); (4301, 4301, 1, 11565); (5024, 5103, 1, 43888);
   (5104, 5109, 1, 5112); (7312, 7354, 1, 4304); (7357, 7359, 1, 4349);
   (7680, 7828, 2, 7681); (7838, 7838, 1, 223); (7840, 7934, 2, 7841);
   (7944, 7951, 1, 7936); (7960, 7965, 1, 7952); (7976, 7983, 1, 7968);
   (7992, 7999, 1, 7984); (8008, 8013, 1, 8000); (8025, 8031, 2, 8017);
   (8040, 8047, 1, 8032); (8072, 8079, 1, 8064); (8088, 8095, 1, 8080);
   (8104, 8111, 1, 8096); (8120, 8121, 1, 8112); (8122, 8123, 1, 8048);
   (8124, 8124, 1, 8115); (8136, 8139, 1, 8050); (8140, 8140, 1, 8131);
   (8152, 8153, 1, 8144); (8154, 8155, 1, 8054); (8168, 8169, 1, 8160);
   (8170, 8171, 1, 8058); (8172, 8172, 1, 8165); (8184, 8185, 1, 8056);
   (8186, 8187, 1, 8060); (8188, 8188, 1, 8179); (8486, 8486, 1, 969);
   (8490, 8490, 1, 107); (8491, 8491, 1, 229); (8498, 8498, 1, 8526);
   (8544, 8559, 1, 8560); (8579, 8579, 1, 8580); (9398, 9423, 1, 9424);
   (11264, 11311, 1, 11312); (11360, 11360, 1, 11361); (11362, 11362, 1, 619);
   (11363, 11363, 1, 7549); (11364, 11364, 1, 637); (11367, 11371, 2, 11368);
   (11373, 11373, 1, 593); (11374, 11374, 1, 625); (11375, 11375, 1, 592);
   (11376, 11376, 1, 594); (11378, 11378, 1, 11379); (11381, 11381, 1, 11382);
   (11390, 11391, 1, 575); (11392, 11490, 2, 11393); (11499, 11501, 2, 11500);
   (11506, 11506, 1, 11507); (42560, 42604, 2, 42561); (42624, 42650, 2, 42625);
   (42786, 42798, 2, 42787); (42802, 42862, 2, 42803); (42873, 42875, 2, 42874);
   (42877, 42877, 1, 7545); (42878, 42886, 2, 42879); (42891, 42891, 1, 42892);
   (42893, 42893, 1, 613); (42896, 42898, 2, 42897); (42902, 42920, 2, 42903);
   (42922, 42922, 1, 614); (42923, 42923, 1, 604); (42924, 42924, 1, 609);
   (42925, 42925, 1, 620); (42926, 42926, 1, 618); (42928, 42928, 1, 670);
   (42929, 42929, 1, 647); (42930, 42930, 1, 669); (42931, 42931, 1, 43859);
   (42932, 42946, 2, 42933); (42948, 42948, 1, 42900); (42949, 42949, 1, 642);
   (42950, 42950, 1, 7566); (42951, 42953, 2, 42952); (42960, 42960, 1, 42961);
   (42966, 42968, 2, 42967); (42997, 42997, 1, 42998); (65313, 65338, 1, 65345);
   (66560, 66599, 1, 66600); (66736, 66771, 1, 66776); (66928, 66964, 2, 66967);
   (66929, 66938, 1, 66968); (66941, 66954, 1, 66980); (66957, 66962, 1, 66996);
   (66965, 66965, 1, 67004); (68736, 68786, 1, 68800); (71840, 71871, 1, 71872);
   (93760, 93791, 1, 93792); (125184, 125217, 1, 125218)
  ]%N.

Definition lower_special : list (N * pystr) :=
  [
   (304, [105; 775])
  ]%N.

Definition title_runs : list (N * N * N * N) :=
  [
   (97, 122, 1, 65); (181, 181, 1, 924); (224, 246, 1, 192);
   (248, 254, 1, 216); (255, 255, 1, 376); (257, 303, 2, 256);
   (305, 305, 1, 73); (307, 311, 2, 306); (314, 328, 2, 313);
   (331, 375, 2, 330); (378, 382, 2, 377); (383, 383, 1, 83);
   (384, 384, 1, 579); (387, 389, 2, 386); (392, 392, 1, 391);
   (396, 396, 1, 395); (402, 402, 1, 401); (405, 405, 1, 502);
   (409, 409, 1, 408); (410, 410, 1, 573); (414, 414, 1, 544);
   (417, 421, 2, 416); (424, 424, 1, 423); (429, 429, 1, 428);
   (432, 432, 1, 431); (436, 438, 2, 435); (441, 441, 1, 440);
   (445, 445, 1, 444); (447, 447, 1, 503); (452, 452, 1, 453);
   (454, 454, 1, 453); (455, 455, 1, 456); (457, 457, 1, 456);
   (458, 458, 1, 459); (460, 476, 2, 459); (477, 477, 1, 398);
   (479, 495, 2, 478); (497, 497, 1, 498); (499, 501, 2, 498);
   (505, 543, 2, 504); (547, 563, 2, 546); (572, 572, 1, 571);
   (575, 576, 1, 11390); (578, 578, 1, 577); (583, 591, 2, 582);
   (592, 592, 1, 11375); (593, 593, 1, 11373); (594, 594, 1, 11376);
   (595, 595, 1, 385); (596, 596, 1, 390); (598, 599, 1, 393);
   (601, 601, 1, 399); (603, 603, 1, 400); (604, 604, 1, 42923);
   (608, 608, 1, 403); (609, 609, 1, 42924); (611, 611, 1, 404);
   (613, 613, 1, 42893); (614, 614, 1, 42922); (616, 616, 1, 407);
   (617, 617, 1, 406); (618, 618, 1, 42926); (619, 619, 1, 11362);
   (620, 620, 1, 42925); (623, 623, 1, 412); (625, 625, 1, 11374);
   (626, 626, 1, 413); (629, 629, 1, 415); (637, 637, 1, 11364);
   (640, 640, 1, 422); (642, 642, 1, 42949); (643, 643, 1, 425);
   (647, 647, 1, 42929); (648, 648, 1, 430); (649, 649, 1, 580);
   (650, 651, 1, 433); (652, 652, 1, 581); (658, 658, 1, 439);
   (669, 669, 1, 42930); (670, 670, 1, 42928); (837, 837, 1, 921);
   (881, 883, 2, 880); (887, 887, 1, 886); (891, 893, 1, 1021);
   (940, 940, 1, 902); (941, 943, 1, 904); (945, 961, 1, 913);
   (962, 962, 1, 931); (963, 971, 1, 931); (972, 972, 1, 908);
   (973, 974, 1, 910); (976, 976, 1, 914); (977, 977, 1, 920);
   (981, 981, 1, 934); (982, 982, 1, 928); (983, 983, 1, 975);
   (985, 1007, 2, 984); (1008, 1008, 1, 922); (1009, 1009, 1, 929);
   (1010, 1010, 1, 1017); (1011, 1011, 1, 895); (1013, 1013, 1, 917);
   (1016, 1016, 1, 1015); (1019, 1019, 1, 1018); (1072, 1103, 1, 1040);
   (1104, 1119, 1, 1024); (1121, 1153, 2, 1120); (1163, 1215, 2, 1162);
   (1218, 1230, 2, 1217); (1231, 1231, 1, 1216); (1233, 1327, 2, 1232);
   (1377, 1414, 1, 1329); (5112, 5117, 1, 5104); (7296, 7296, 1, 1042);
   (7297, 7297, 1, 1044); (7298, 7298, 1, 1054); (7299, 7300, 1, 1057);
   (7301, 7301, 1, 1058); (7302, 7302, 1, 1066); (7303, 7303, 1, 1122);
   (7304, 7304, 1, 42570); (7545, 7545, 1, 42877); (7549, 7549, 1, 11363);
   (7566, 7566, 1, 42950); (7681, 7829, 2, 7680); (7835, 7835, 1, 7776);
   (7841, 7935, 2, 7840); (7936, 7943, 1, 7944); (7952, 7957, 1, 7960);
   (7968, 7975, 1, 7976); (7984, 7991, 1, 7992); (8000, 8005, 1, 8008);
   (8017, 8023, 2, 8025); (8032, 8039, 1, 8040); (8048, 8049, 1, 8122);
   (8050, 8053, 1, 8136); (8054, 8055, 1, 8154); (8056, 8057, 1, 8184);
   (8058, 8059, 1, 8170); (8060, 8061, 1, 8186); (8064, 8071, 1, 8072);
   (8080, 8087, 1, 8088); (8096, 8103, 1, 8104); (8112, 8113, 1, 8120);
   (8115, 8115, 1, 8124); (8126, 8126, 1, 921); (8131, 8131, 1, 8140);
   (8144, 8145, 1, 8152); (8160, 8161, 1, 8168); (8165, 8165, 1, 8172);
   (8179, 8179, 1, 8188); (8526, 8526, 1, 8498); (8560, 8575, 1, 8544);
   (8580, 8580, 1, 8579); (9424, 9449, 1, 9398); (11312, 11359, 1, 11264);
   (11361, 11361, 1, 11360); (11365, 11365, 1, 570); (11366, 11366, 1, 574);
   (11368, 11372, 2, 11367); (11379, 11379, 1, 11378); (11382, 11382, 1, 11381);
   (11393, 11491, 2, 11392); (11500, 11502, 2, 11499); (11507, 11507, 1, 11506);
   (11520, 11557, 1, 4256); (11559, 11559, 1, 4295); (11565, 11565, 1, 4301);
   (42561, 42605, 2, 42560); (42625, 42651, 2, 42624); (42787, 42799, 2, 42786);
   (42803, 42863, 2, 42802); (42874, 42876, 2, 42873); (42879, 42887, 2, 42878);
   (42892, 42892, 1, 42891); (42897, 42899, 2, 42896); (42900, 42900, 1, 42948);
   (42903, 42921, 2, 42902); (42933, 42947, 2, 42932); (42952, 42954, 2, 42951);
   (42961, 42961, 1, 42960); (42967, 42969, 2, 42966); (42998, 42998, 1, 42997);
   (43859, 43859, 1, 42931); (43888, 43967, 1, 5024); (65345, 65370, 1, 65313);
   (66600, 66639, 1, 66560); (66776, 66811, 1, 66736); (66967, 67003, 2, 66928);
   (66968, 66977, 1, 66929); (66980, 66993, 1, 66941); (66996, 67001, 1, 66957);
   (67004, 67004, 1, 66965); (68800, 68850, 1, 68736); (71872, 71903, 1, 71840);
   (93792, 93823, 1, 93760); (125218, 125251, 1, 125184)
  ]%N.

Definition title_special : list (N * pystr) :=
  [
   (223, [83; 115]); (329, [700; 78]); (496, [74; 780]);
   (912, [921; 776; 769]); (944, [933; 776; 769]); (1415, [1333; 1410]);
   (7830, [72; 817]); (7831, [84; 776]); (7832, [87; 778]);
   (7833, [89; 778]); (7834, [65; 702]); (8016, [933; 787]);
   (8018, [933; 787; 768]); (8020, [933; 787; 769]); (8022, [933; 787; 834]);
   (8114, [8122; 837]); (8116, [902; 837]); (8118, [913; 834]);
   (8119, [913; 834; 837]); (8130, [8138; 837]); (8132, [905; 837]);
   (8134, [919; 834]); (8135, [919; 834; 837]); (8146, [921; 776; 768]);
   (8147, [921; 776; 769]); (8150, [921; 834]); (8151, [921; 776; 834]);
   (8162, [933; 776; 768]); (8163, [933; 776; 769]); (8164, [929; 787]);
   (8166, [933; 834]); (8167, [933; 776; 834]); (8178, [8186; 837]);
   (8180, [911; 837]); (8182, [937; 834]); (8183, [937; 834; 837]);
   (64256, [70; 102]); (64257, [70; 105]); (64258, [70; 108]);
   (64259, [70; 102; 105]); (64260, [70; 102; 108]); (64261, [83; 116]);
   (64262, [83; 116]); (64275, [1348; 1398]); (64276, [1348; 1381]);
   (64277, [1348; 1387]); (64278, [1358; 1398]); (64279, [1348; 1389])
  ]%N.

Definition is_cased (c : char) : bool := in_ranges cased_ranges c.

Definition is_case_ignorable (c : char) : bool :=
  in_ranges case_ignorable_ranges c.

Definition full_mapping (runs : list (N * N * N * N))
    (special : list (N * pystr)) (c : char) : pystr :=
  match map_special special c with
  | Some image => image
  | None =>
      match map_run runs c with
      | Some image => [image]
      | None => [c]
      end
  end.

Definition to_lower_full (c : char) : pystr :=
  full_mapping lower_runs lower_special c.

Definition to_title_full (c : char) : pystr :=
  full_mapping title_runs title_special c.

Fixpoint skip_case_ignorable (s : pystr) : pystr :=
  match s with
  | [] => []
  | c :: s' => if is_case_ignorable c then skip_case_ignorable s' else s
  end.

(** Whether a capital sigma between [before] (read backwards) and [after]
    ends a word: a cased letter before it, none after it, case-ignorable
    characters apart. *)
Definition final_sigma (before_rev after : pystr) : bool :=
  match skip_case_ignorable before_rev with
  | c :: _ => is_cased c
  | [] => false
  end
  && match skip_case_ignorable after with
     | [] => true
     | c :: _ => negb (is_cased c)
     end.

(** The lower case of [c] where it stands. *)
Definition lower_at (before_rev : pystr) (c : char) (after : pystr) : pystr :=
  if (c =? 931)%N
  then [if final_sigma before_rev after then 962%N else 963%N]
  else to_lower_full c.

Fixpoint lower_from (before_rev s : pystr) : pystr :=
  match s with
  | [] => []
  | c :: s' => lower_at before_rev c s' ++ lower_from (c :: before_rev) s'
  end.

(** [s.lower()] *)
Definition str_lower (s : pystr) : pystr := lower_from [] s.

Fixpoint title_from (before_rev : pystr) (previous_is_cased : bool)
    (s : pystr) : pystr :=
  match s with
  | [] => []
  | c :: s' =>
      (if previous_is_cased then lower_at before_rev c s'
       else to_title_full c)
      ++ title_from (c :: before_rev) (is_cased c) s'
  end.

(** [s.title()] *)
Definition str_title (s : pystr) : pystr := title_from [] false s.

(** [str(n)] for an [int]. *)
Fixpoint uint_digits (d : Decimal.uint) : pystr :=
  match d with
  | Decimal.Nil => []
  | Decimal.D0 d => 48%N :: uint_digits d
  | Decimal.D1 d => 49%N :: uint_digits d
  | Decimal.D2 d => 50%N :: uint_digits d
  | Decimal.D3 d => 51%N :: uint_digits d
  | Decimal.D4 d => 52%N :: uint_digits d
  | Decimal.D5 d => 53%N :: uint_digits d
  | Decimal.D6 d => 54%N :: uint_digits d
  | Decimal.D7 d => 55%N :: uint_digits d
  | Decimal.D8 d => 56%N :: uint_digits d
  | Decimal.D9 d => 57%N :: uint_digits d
  end.

Definition str_of_nat (n : nat) : pystr := uint_digits (Nat.to_uint n).

Definition str_of_Z (z : Z) : pystr :=
  match Z.to_int z with
  | Decimal.Pos d => uint_digits d
  | Decimal.Neg d => 45%N :: uint_digits d
  end.

(** ** Exceptions *)

(** [Exception m] is what [except Exception] catches; [Interrupt] stands for
    the others ([KeyboardInterrupt], [SystemExit]), which it lets through. *)
Inductive exn : Type :=
| Exception (msg : pystr)
| Interrupt.

Inductive result (A : Type) : Type :=
| Ok (a : A)
| Raise (e : exn).

Arguments Ok {A} a.
Arguments Raise {A} e.

Definition bind {A B : Type} (r : result A) (k : A -> result B) : result B :=
  match r with
  | Ok a => k a
  | Raise e => Raise e
  end.

Notation "x <- r ;; k" := (bind r (fun x => k))
  (at level 61, r at next level, right associativity).

(** [try: body  except Exception as e: handler e] *)
Definition try_except {A : Type} (body : result A) (handler : pystr -> result A)
  : result A :=
  match body with
  | Raise (Exception m) => handler m
  | r => r
  end.

(** ** pathlib *)

(** A path is its components; the name is the last one. *)
Definition path := list pystr.

Definition DOT : char := 46%N.
Definition SLASH : char := 47%N.

Definition path_name (p : path) : pystr := last p [].

Definition path_str (p : path) : pystr := join [SLASH] p.

Fixpoint rfind_from (c : char) (s : pystr) (i : nat) (found : option nat)
  : option nat :=
  match s with
  | [] => found
  | x :: s' => rfind_from c s' (S i) (if (x =? c)%N then Some i else found)
  end.

(** [name.rfind('.')] *)
Definition rfind (c : char) (s : pystr) : option nat := rfind_from c s 0 None.

(** [PurePath.suffix]: from the last dot, unless that dot is the first or
    the last character of the name. *)
Definition path_suffix (p : path) : pystr :=
  let name := path_name p in
  match rfind DOT name with
  | Some i =>
      if (0 <? i) && (i <? length name - 1) then skipn i name else []
  | None => []
  end.

Definition path_stem (p : path) : pystr :=
  let name := path_name p in
  match rfind DOT name with
  | Some i =>
      if (0 <? i) && (i <? length name - 1) then firstn i name else name
  | None => name
  end.

Definition with_suffix (p : path) (suffix : pystr) : path :=
  removelast p ++ [path_stem p ++ suffix].

(** ** The file system the scripts read *)

Section FileSystem.

(** [doc] is what the format's library makes of a readable file. *)
Variable doc : Type.

(** A file is given by what opening it with the library returns; a
    directory lists its entries in the order the system enumerates them. *)
#[warnings="-register-all"] Inductive node : Type :=
| NFile (opened : result doc)
| NDir (entries : list (pystr * node)).

Fixpoint find_entry (name : pystr) (entries : list (pystr * node))
  : option node :=
  match entries with
  | [] => None
  | (n, x) :: rest => if str_eqb n name then Some x else find_entry name rest
  end.

Fixpoint lookup (root : node) (p : path) : option node :=
  match p with
  | [] => Some root
  | c :: p' =>
      match root with
      | NDir entries =>
          match find_entry c entries with
          | Some x => lookup x p'
          | None => None
          end
      | NFile _ => None
      end
  end.

(** [p.exists()] *)
Definition path_exists (root : node) (p : path) : bool :=
  match lookup root p with Some _ => true | None => false end.

(** [p.is_dir()] *)
Definition is_dir (root : node) (p : path) : bool :=
  match lookup root p with Some (NDir _) => true | _ => false end.

(** [folder.glob("*" + ext)]: the entries of [folder] itself whose name
    ends with [ext], in enumeration order. *)
Definition glob (root : node) (folder : path) (ext : pystr) : list path :=
  match lookup root folder with
  | Some (NDir entries) =>
      map (fun e => folder ++ [fst e])
          (filter (fun e => endswith ext (fst e)) entries)
  | _ => []
  end.

(** The library's loader on a path: a directory or a missing file fails. *)
Definition open_document (root : node) (p : path) : result doc :=
  match lookup root p with
  | Some (NFile opened) => opened
  | _ => Raise (Exception (py "cannot open " ++ path_str p))
  end.

(** [p.write_text(..)] on the tree: the write fails when the folder of [p]
    is missing or is a file, and when [p] itself is a directory. *)
Definition write_text (root : node) (p : path) : result unit :=
  match p with
  | [] => Raise (Exception (py "Is a directory: ."))
  | _ :: _ =>
      match lookup root (removelast p) with
      | Some (NDir entries) =>
          match find_entry (path_name p) entries with
          | Some (NDir _) =>
              Raise (Exception (py "Is a directory: " ++ path_str p))
          | _ => Ok tt
          end
      | Some (NFile _) =>
          Raise (Exception (py "Not a directory: " ++ path_str p))
      | None =>
          Raise (Exception (py "No such file or directory: " ++ path_str p))
      end
  end.

End FileSystem.

Arguments NFile {doc} opened.
Arguments NDir {doc} entries.

(** ** pdf_ocr_to_markdown.py *)

Module Pdf.

(** The body of the first loop of [clean_text_for_markdown], for one line. *)
Definition clean_line (line : pystr) : pystr :=
  let line := strip line in
  if negb (truthy line) then []
  else join [SP] (split_ws line).

(** The second loop: [blank_count] is the loop's counter. *)
Fixpoint limit_blanks (blank_count : nat) (cleaned_lines : list pystr)
  : list pystr :=
  match cleaned_lines with
  | [] => []
  | line :: rest =>
      if negb (truthy line) then
        let blank_count := S blank_count in
        if blank_count <=? 2 then line :: limit_blanks blank_count rest
        else limit_blanks blank_count rest
      else line :: limit_blanks 0 rest
  end.

Definition clean_text_for_markdown (text : pystr) : pystr :=
  let lines := split_on NL text in
  let cleaned_lines := map clean_line lines in
  let result := limit_blanks 0 cleaned_lines in
  join [NL] result.


(** The tag of an extraction: ["text"], ["ocr"], ["none"]. *)
Inductive method : Type := m_text | m_ocr | m_none.

Definition method_eqb (a b : method) : bool :=
  match a, b with
  | m_text, m_text | m_ocr, m_ocr | m_none, m_none => true
  | _, _ => false
  end.

(** The PNG bytes of a rendered page. *)
Definition image := list N.

(** [page.get_text("text")] and [page.get_pixmap(dpi=..)] followed by
    [tobytes("png")]; either call of the library may raise. *)
Record page : Type := {
  get_text : result pystr;
  get_pixmap : N -> result image
}.

(** The recognition capability: [Image.open] and
    [pytesseract.image_to_string] on the bytes.  [None] is
    [OCR_AVAILABLE = False]. *)
Definition ocr_engine := option (image -> result pystr).

Definition extract_text_from_page (OCR_AVAILABLE : ocr_engine) (p : page)
  : result (pystr * method) :=
  raw <- get_text p ;;
  let text := strip raw in
  if 50 <? length text then Ok (text, m_text)
  else
    let whatever := Ok (text, if truthy text then m_text else m_none) in
    match OCR_AVAILABLE with
    | Some image_to_string =>
        try_except
          (img <- get_pixmap p 300 ;;
           recognised <- image_to_string img ;;
           let ocr_text := strip recognised in
           if truthy ocr_text then Ok (ocr_text, m_ocr) else whatever)
          (fun _ => whatever)
    | None => whatever
    end.

(** [doc.metadata] as the dict it is, and the pages in order. *)
Record pdf_doc : Type := {
  metadata : list (pystr * pystr);
  pages : list page
}.

(** [d.get(key, '')] *)
Fixpoint dict_get (d : list (pystr * pystr)) (key : pystr) : pystr :=
  match d with
  | [] => []
  | (k, v) :: rest => if str_eqb k key then v else dict_get rest key
  end.

(** [methods_used], a count per tag. *)
Definition tally := method -> nat.

Definition tally0 : tally := fun _ => 0.

Definition incr (t : tally) (m : method) : tally :=
  fun m' => if method_eqb m m' then S (t m') else t m'.

(** The loop over [enumerate(doc, start=1)]: [page_num] is the ordinal of
    the first page of [ps]. *)
Fixpoint process_pages (OCR_AVAILABLE : ocr_engine) (total_pages : nat)
    (page_num : nat) (ps : list page)
    (md_parts : list pystr) (methods_used : tally)
  : result (list pystr * tally) :=
  match ps with
  | [] => Ok (md_parts, methods_used)
  | p :: rest =>
      r <- extract_text_from_page OCR_AVAILABLE p ;;
      let '(text, method) := r in
      let methods_used := incr methods_used method in
      let md_parts :=
        if truthy text then
          let md_parts :=
            if 1 <? total_pages
            then md_parts ++ [py "## Page " ++ str_of_nat page_num]
            else md_parts in
          let md_parts := md_parts ++ [clean_text_for_markdown text] in
          if 1 <? total_pages then md_parts ++ [py "---"] else md_parts
        else md_parts in
      process_pages OCR_AVAILABLE total_pages (S page_num) rest
        md_parts methods_used
  end.

(** The title block that precedes the pages. *)
Definition header (input_path : path) (doc : pdf_doc) : list pystr :=
  let doc_title :=
    if truthy (dict_get (metadata doc) (py "title"))
    then dict_get (metadata doc) (py "title")
    else path_stem input_path in
  let doc_title :=
    str_title (replace 45%N [SP] (replace 95%N [SP] doc_title)) in
  let author := dict_get (metadata doc) (py "author") in
  [py "# " ++ doc_title;
   py "*Converted from: " ++ path_name input_path ++ py "*"]
  ++ (if truthy author then [py "*Author: " ++ author ++ py "*"] else [])
  ++ [py "---"].

(** [md_parts] when the loop is over, with [methods_used]. *)
Definition build_md_parts (OCR_AVAILABLE : ocr_engine) (input_path : path)
    (doc : pdf_doc) : result (list pystr * tally) :=
  process_pages OCR_AVAILABLE (length (pages doc)) 1 (pages doc)
    (header input_path doc) tally0.

(** Returns the output path, with the text written to it. *)
Definition convert_pdf_to_markdown (OCR_AVAILABLE : ocr_engine)
    (root : node pdf_doc) (input_path : path) (output_path : option path)
  : result (path * pystr) :=
  if negb (path_exists root input_path) then
    Raise (Exception (py "Input file not found: " ++ path_str input_path))
  else if negb (str_eqb (str_lower (path_suffix input_path)) (py ".pdf")) then
    Raise (Exception
             (py "Input file must be a .pdf file: " ++ path_str input_path))
  else
    let output_path :=
      match output_path with
      | None => with_suffix input_path (py ".md")
      | Some o => o
      end in
    doc <- open_document root input_path ;;
    r <- build_md_parts OCR_AVAILABLE input_path doc ;;
    let markdown_content := join [NL; NL] (fst r) in
    _ <- write_text root output_path ;;
    Ok (output_path, markdown_content).

(** The loop of [batch_convert] over the files still to do.  A conversion
    reads a file the glob listed and writes a regular file named [.md]: what
    the earlier turns wrote changes nothing a later turn reads or tests, so
    every turn runs on [root]. *)
Fixpoint convert_each (OCR_AVAILABLE : ocr_engine) (root : node pdf_doc)
    (pdf_files : list path) (converted : list path) : result (list path) :=
  match pdf_files with
  | [] => Ok converted
  | pdf_file :: rest =>
      converted <-
        try_except
          (r <- convert_pdf_to_markdown OCR_AVAILABLE root pdf_file None ;;
           Ok (converted ++ [fst r]))
          (fun _ => Ok converted) ;;
      convert_each OCR_AVAILABLE root rest converted
  end.

Definition batch_convert (OCR_AVAILABLE : ocr_engine) (root : node pdf_doc)
    (folder : path) : result (list path) :=
  if negb (is_dir root folder) then
    Raise (Exception (py "Not a directory: " ++ path_str folder))
  else
    let pdf_files := glob root folder (py ".pdf") in
    match pdf_files with
    | [] => Ok []
    | _ => convert_each OCR_AVAILABLE root pdf_files []
    end.

End Pdf.

(** ** pptx_to_markdown.py *)

Module Pptx.

(** A table by the [cell.text] of each cell of each of its rows. *)
Definition table := list (list pystr).

(** A shape: [ident] is the element [==] compares; [text] is [None] when
    the shape has no such attribute; [shape_table] is [Some] exactly when
    [has_table] is true. *)
Record shape : Type := {
  ident : N;
  text : option pystr;
  shape_table : option table
}.



(** [notes] is [None] without a notes slide; [Some None] when the notes
    slide has no text frame. *)
Record slide : Type := {
  title : option shape;
  shapes : list shape;
  notes : option (option pystr)
}.

Definition presentation := list slide.

(** One turn of the loop of [convert_table_to_markdown]: the lines this row
    adds. *)
Definition table_row_lines (row_idx : nat) (row : list pystr) : list pystr :=
  let cells := map (fun cell => replace PIPE (py "\|") (strip cell)) row in
  [py "| " ++ join (py " | ") cells ++ py " |"]
  ++ (if row_idx =? 0
      then [py "| " ++ join (py " | ") (repeat (py "---") (length cells))
               ++ py " |"]
      else []).

Fixpoint table_rows_from (row_idx : nat) (t : table) : list pystr :=
  match t with
  | [] => []
  | row :: rest => table_row_lines row_idx row ++ table_rows_from (S row_idx) rest
  end.

Definition convert_table_to_markdown (t : table) : pystr :=
  join [NL] (table_rows_from 0 t).

Definition extract_text_from_shape (s : shape) : pystr :=
  let text_parts :=
    match text s with
    | Some t => if truthy (strip t) then [strip t] else []
    | None => []
    end in
  let text_parts :=
    match shape_table s with
    | Some t => text_parts ++ [convert_table_to_markdown t]
    | None => text_parts
    end in
  join [NL] text_parts.

(** [shape == slide.shapes.title] *)
Definition is_title (sl : slide) (s : shape) : bool :=
  match title sl with
  | Some t => (ident s =? ident t)%N
  | None => false
  end.

(** The loop of [convert_slide_to_markdown] over the shapes. *)
Fixpoint content_of (sl : slide) (ss : list shape) : list pystr :=
  match ss with
  | [] => []
  | s :: rest =>
      if is_title sl s then content_of sl rest
      else
        let t := extract_text_from_shape s in
        if truthy t then t :: content_of sl rest else content_of sl rest
  end.

(** [shape.text] of the title shape; a placeholder has the attribute. *)
Definition text_of (s : shape) : pystr :=
  match text s with Some t => t | None => [] end.

Definition convert_slide_to_markdown (sl : slide) (slide_number : nat)
  : pystr :=
  let md_parts := [py "## Slide " ++ str_of_nat slide_number] in
  let md_parts :=
    match title sl with
    | Some t =>
        let title := strip (text_of t) in
        if truthy title then md_parts ++ [py "### " ++ title] else md_parts
    | None => md_parts
    end in
  let content_parts := content_of sl (shapes sl) in
  let md_parts :=
    match content_parts with
    | [] => md_parts
    | _ => md_parts ++ [join [NL] content_parts]
    end in
  let md_parts :=
    match notes sl with
    | Some (Some notes_text) =>
        if truthy (strip notes_text)
        then md_parts ++ [NL :: py "**Speaker Notes:**";
                          py "_" ++ strip notes_text ++ py "_"]
        else md_parts
    | _ => md_parts
    end in
  join [NL; NL] md_parts.

(** The loop over [enumerate(prs.slides, start=1)]. *)
Fixpoint slide_parts (slide_number : nat) (slides : list slide) : list pystr :=
  match slides with
  | [] => []
  | sl :: rest =>
      [convert_slide_to_markdown sl slide_number; py "---"]
      ++ slide_parts (S slide_number) rest
  end.

(** [md_parts] when the loop is over. *)
Definition build_md_parts (input_path : path) (prs : presentation)
  : list pystr :=
  let doc_title :=
    str_title (replace 45%N [SP] (replace 95%N [SP] (path_stem input_path))) in
  [py "# " ++ doc_title;
   py "*Converted from: " ++ path_name input_path ++ py "*";
   py "---"]
  ++ slide_parts 1 prs.

Definition convert_pptx_to_markdown (root : node presentation)
    (input_path : path) (output_path : option path) : result (path * pystr) :=
  if negb (path_exists root input_path) then
    Raise (Exception (py "Input file not found: " ++ path_str input_path))
  else if negb (str_eqb (str_lower (path_suffix input_path)) (py ".pptx")) then
    Raise (Exception
             (py "Input file must be a .pptx file: " ++ path_str input_path))
  else
    let output_path :=
      match output_path with
      | None => with_suffix input_path (py ".md")
      | Some o => o
      end in
    prs <- open_document root input_path ;;
    let markdown_content := join [NL; NL] (build_md_parts input_path prs) in
    _ <- write_text root output_path ;;
    Ok (output_path, markdown_content).

Fixpoint convert_each (root : node presentation) (pptx_files : list path)
    (converted : list path) : result (list path) :=
  match pptx_files with
  | [] => Ok converted
  | pptx_file :: rest =>
      converted <-
        try_except
          (r <- convert_pptx_to_markdown root pptx_file None ;;
           Ok (converted ++ [fst r]))
          (fun _ => Ok converted) ;;
      convert_each root rest converted
  end.

Definition batch_convert (root : node presentation) (folder : path)
  : result (list path) :=
  if negb (is_dir root folder) then
    Raise (Exception (py "Not a directory: " ++ path_str folder))
  else
    let pptx_files := glob root folder (py ".pptx") in
    match pptx_files with
    | [] => Ok []
    | _ => convert_each root pptx_files []
    end.

End Pptx.

(** ** xlsx_to_markdown.py *)

Module Xlsx.

(** A cell value as [iter_rows(values_only=True)] gives it.  [VOther] is a
    float or a date, by its [str()]. *)
Inductive value : Type :=
| VNone
| VStr (s : pystr)
| VInt (z : Z)
| VBool (b : bool)
| VOther (repr : pystr).

Definition is_not_none (v : value) : bool :=
  match v with VNone => false | _ => true end.

(** [str(value)] *)
Definition str (v : value) : pystr :=
  match v with
  | VNone => py "None"
  | VStr s => s
  | VInt z => str_of_Z z
  | VBool true => py "True"
  | VBool false => py "False"
  | VOther repr => repr
  end.

Definition clean_cell_value (v : value) : pystr :=
  match v with
  | VNone => []
  | _ =>
      let text := strip (str v) in
      let text := replace PIPE (py "\|") text in
      let text := replace NL (py "<br>") text in
      text
  end.

(** The rows of the used range. *)
Definition sheet := list (list value).

(** [for i, cell in enumerate(reversed(row))]: the index of the first cell
    that is not [None]. *)
Fixpoint first_not_none (i : nat) (cells : list value) : option nat :=
  match cells with
  | [] => None
  | cell :: rest =>
      if is_not_none cell then Some i else first_not_none (S i) rest
  end.

(** The loop that determines [max_cols]. *)
Fixpoint max_cols_from (max_cols : nat) (rows : list (list value)) : nat :=
  match rows with
  | [] => max_cols
  | row :: rest =>
      match first_not_none 0 (rev row) with
      | Some i => max_cols_from (Nat.max max_cols (length row - i)) rest
      | None => max_cols_from max_cols rest
      end
  end.

(** One turn of the loop that builds [table_rows]. *)
Definition table_row_lines (max_cols : nat) (row_idx : nat) (row : list value)
  : list pystr :=
  let cells := firstn max_cols row in
  let cells := cells ++ repeat VNone (max_cols - length cells) in
  let cleaned_cells := map clean_cell_value cells in
  [py "| " ++ join (py " | ") cleaned_cells ++ py " |"]
  ++ (if row_idx =? 0
      then [py "| " ++ join (py " | ") (repeat (py "---") max_cols) ++ py " |"]
      else []).

Fixpoint table_rows_from (max_cols : nat) (row_idx : nat)
    (rows : list (list value)) : list pystr :=
  match rows with
  | [] => []
  | row :: rest =>
      table_row_lines max_cols row_idx row
      ++ table_rows_from max_cols (S row_idx) rest
  end.

(** The rows kept by the filter on completely empty rows. *)
Definition data_rows (sh : sheet) : list (list value) :=
  filter (fun row => existsb is_not_none row) sh.

Definition convert_sheet_to_markdown (sh : sheet) (sheet_name : pystr)
  : pystr :=
  let md_parts := [py "## " ++ sheet_name] in
  match sh with
  | [] => join [NL; NL] (md_parts ++ [py "*Empty sheet*"])
  | _ =>
      let rows := data_rows sh in
      match rows with
      | [] => join [NL; NL] (md_parts ++ [py "*Empty sheet*"])
      | _ =>
          let max_cols := max_cols_from 0 rows in
          if max_cols =? 0 then
            join [NL; NL] (md_parts ++ [py "*Empty sheet*"])
          else
            let table_rows := table_rows_from max_cols 0 rows in
            join [NL; NL] (md_parts ++ [join [NL] table_rows])
      end
  end.

(** What [wb[sheet_name]] can be: a worksheet with its rows, or a chart
    sheet, which has no [iter_rows]. *)
Inductive sheet_object : Type :=
| Worksheet (rows : sheet)
| Chartsheet.

(** A workbook: the sheets by name, in [wb.sheetnames] order. *)
Definition workbook := list (pystr * sheet_object).

Definition sheetnames (wb : workbook) : list pystr := map fst wb.

(** [wb[sheet_name]] *)
Fixpoint getitem (wb : workbook) (sheet_name : pystr) : result sheet_object :=
  match wb with
  | [] => Raise (Exception (py "Worksheet does not exist."))
  | (n, obj) :: rest =>
      if str_eqb n sheet_name then Ok obj else getitem rest sheet_name
  end.

(** [sheet.iter_rows(values_only=True)] *)
Definition iter_rows (obj : sheet_object) : result sheet :=
  match obj with
  | Worksheet rows => Ok rows
  | Chartsheet =>
      Raise (Exception
               (py "'Chartsheet' object has no attribute 'iter_rows'"))
  end.

(** [convert_sheet_to_markdown] on the object of the workbook: before
    [iter_rows] it only notes the heading, so on a chart sheet it raises. *)
Definition convert_sheet_object (obj : sheet_object) (sheet_name : pystr)
  : result pystr :=
  rows <- iter_rows obj ;;
  Ok (convert_sheet_to_markdown rows sheet_name).

(** The loop over the sheet names that writes the table of contents. *)
Definition contents (wb : workbook) : list pystr :=
  if 1 <? length (sheetnames wb) then
    (NL :: py "## Contents")
    :: map (fun sheet_name =>
              let anchor := replace SP (py "-") (str_lower sheet_name) in
              py "- [" ++ sheet_name ++ py "](#" ++ anchor ++ py ")")
           (sheetnames wb)
  else [].

(** The loop that converts each sheet. *)
Fixpoint sheet_parts (wb : workbook) (names : list pystr)
  : result (list pystr) :=
  match names with
  | [] => Ok []
  | sheet_name :: rest =>
      obj <- getitem wb sheet_name ;;
      sheet_md <- convert_sheet_object obj sheet_name ;;
      more <- sheet_parts wb rest ;;
      Ok ([sheet_md; py "---"] ++ more)
  end.

(** [md_parts] when the loop is over. *)
Definition build_md_parts (input_path : path) (wb : workbook)
  : result (list pystr) :=
  let doc_title :=
    str_title (replace 45%N [SP] (replace 95%N [SP] (path_stem input_path))) in
  body <- sheet_parts wb (sheetnames wb) ;;
  Ok ([py "# " ++ doc_title;
       py "*Converted from: " ++ path_name input_path ++ py "*"]
      ++ contents wb ++ [py "---"] ++ body).

(** The formats [load_workbook] accepts. *)
Definition SUPPORTED_FORMATS : list pystr :=
  [py ".xlsx"; py ".xlsm"; py ".xltx"; py ".xltm"].

(** [load_workbook(str(input_path), data_only=True)]: the extension is
    validated before the file is opened.  The extension is read as
    [path_suffix]; on the names that pass the extension test of
    [convert_xlsx_to_markdown] it is what [os.path.splitext] gives. *)
Definition load_workbook (root : node workbook) (p : path) : result workbook :=
  let file_format := str_lower (path_suffix p) in
  if negb (existsb (str_eqb file_format) SUPPORTED_FORMATS) then
    if str_eqb file_format (py ".xls") then
      Raise (Exception
               (py "openpyxl does not support the old .xls file format, please use xlrd to read this file, or convert it to the more recent .xlsx file format."))
    else
      Raise (Exception
               (py "openpyxl does not support " ++ file_format
                ++ py " file format, please check you can open it with Excel first. Supported formats are: .xlsx,.xlsm,.xltx,.xltm"))
  else open_document root p.

Definition convert_xlsx_to_markdown (root : node workbook)
    (input_path : path) (output_path : option path) : result (path * pystr) :=
  if negb (path_exists root input_path) then
    Raise (Exception (py "Input file not found: " ++ path_str input_path))
  else if negb (str_eqb (str_lower (path_suffix input_path)) (py ".xlsx")
                || str_eqb (str_lower (path_suffix input_path)) (py ".xls"))
  then
    Raise (Exception
             (py "Input file must be an Excel file: " ++ path_str input_path))
  else
    let output_path :=
      match output_path with
      | None => with_suffix input_path (py ".md")
      | Some o => o
      end in
    wb <- load_workbook root input_path ;;
    md_parts <- build_md_parts input_path wb ;;
    let markdown_content := join [NL; NL] md_parts in
    _ <- write_text root output_path ;;
    Ok (output_path, markdown_content).

Fixpoint convert_each (root : node workbook) (xlsx_files : list path)
    (converted : list path) : result (list path) :=
  match xlsx_files with
  | [] => Ok converted
  | xlsx_file :: rest =>
      converted <-
        try_except
          (r <- convert_xlsx_to_markdown root xlsx_file None ;;
           Ok (converted ++ [fst r]))
          (fun _ => Ok converted) ;;
      convert_each root rest converted
  end.

Definition batch_convert (root : node workbook) (folder : path)
  : result (list path) :=
  if negb (is_dir root folder) then
    Raise (Exception (py "Not a directory: " ++ path_str folder))
  else
    let xlsx_files :=
      glob root folder (py ".xlsx") ++ glob root folder (py ".xls") in
    match xlsx_files with
    | [] => Ok []
    | _ => convert_each root xlsx_files []
    end.

End Xlsx.

(** ** Reading the output *)

(** The lines of a text. *)
Definition lines (s : pystr) : list pystr := split_on NL s.

(** The pipes of a line that delimit columns: those that do not directly
    follow a backslash. *)
Fixpoint count_delims_from (escaped : bool) (s : pystr) : nat :=
  match s with
  | [] => 0
  | c :: s' =>
      (if (c =? PIPE)%N && negb escaped then 1 else 0)
      + count_delims_from (c =? BACKSLASH)%N s'
  end.

Definition count_delims (s : pystr) : nat := count_delims_from false s.

(** Whether the character after [s] directly follows a backslash. *)
Fixpoint escaped_after (escaped : bool) (s : pystr) : bool :=
  match s with
  | [] => escaped
  | c :: s' => escaped_after (c =? BACKSLASH)%N s'
  end.

(** Whether no run of blank lines in [ls] is longer than [bound], [run]
    blank lines being behind already. *)
Fixpoint blank_runs_within (bound run : nat) (ls : list pystr) : bool :=
  match ls with
  | [] => true
  | l :: rest =>
      if truthy l then blank_runs_within bound 0 rest
      else (S run <=? bound) && blank_runs_within bound (S run) rest
  end.

(** The blocks a page adds to a document of [total_pages] pages when its
    extracted text is [text]. *)
Definition page_blocks (total_pages page_num : nat) (text : pystr)
  : list pystr :=
  if truthy text then
    (if 1 <? total_pages then [py "## Page " ++ str_of_nat page_num] else [])
    ++ [Pdf.clean_text_for_markdown text]
    ++ (if 1 <? total_pages then [py "---"] else [])
  else [].

(** A cell text that adds no delimiter to its line and keeps it one line. *)
Definition inert (cell : pystr) : Prop :=
  (forall escaped, count_delims_from escaped cell = 0) /\ ~ In NL cell.

(** A word: not empty, and free of white space. *)
Definition word (w : pystr) : Prop :=
  w <> [] /\ Forall (fun c => is_space c = false) w.

(** What the extractor returns when the direct text is short and the
    recognition is absent, fails, or reads nothing. *)
Definition whatever (raw : pystr) : pystr * Pdf.method :=
  (strip raw, if truthy (strip raw) then Pdf.m_text else Pdf.m_none).

(** ** Sample inputs *)

Module Sample.

(** A page with the given direct text and no renderer. *)
Definition page_of_text (t : pystr) : Pdf.page :=
  {| Pdf.get_text := Ok t;
     Pdf.get_pixmap := fun _ => Raise (Exception (py "cannot render")) |}.

(** A page with the given direct text that renders to an empty image. *)
Definition scanned_page (t : pystr) : Pdf.page :=
  {| Pdf.get_text := Ok t; Pdf.get_pixmap := fun _ => Ok [] |}.

(** A page on which the library fails to retrieve the text. *)
Definition faulty_page : Pdf.page :=
  {| Pdf.get_text := Raise (Exception (py "bad xref"));
     Pdf.get_pixmap := fun _ => Ok [] |}.

(** A recognition that reads the same words off every image. *)
Definition fixed_engine (t : pystr) : Pdf.image -> result pystr :=
  fun _ => Ok t.

(** A recognition that fails on every image. *)
Definition failing_engine : Pdf.image -> result pystr :=
  fun _ => Raise (Exception (py "tesseract not found")).

Definition letters (n : nat) : pystr := repeat 97%N n.

(** A slide with no title, no shape and no notes. *)
Definition bare_slide : Pptx.slide :=
  {| Pptx.title := None; Pptx.shapes := []; Pptx.notes := None |}.

Definition two_pages : Pdf.pdf_doc :=
  {| Pdf.metadata := [];
     Pdf.pages := [page_of_text (py "first  page"); page_of_text (py "second")]
  |}.

(** A cell text of two paragraphs, the first with a pipe in it. *)
Definition two_paragraphs : pystr := py "a|b" ++ [NL] ++ py "c".


Definition one_page : Pdf.pdf_doc :=
  {| Pdf.metadata := []; Pdf.pages := [page_of_text (py "hello")] |}.

(** A tree with a folder [docs]: in enumeration order [b.pdf] (readable),
    [a.pdf] (damaged), a subfolder [old] with a readable [c.pdf], and a
    text file. *)
Definition tree : node Pdf.pdf_doc :=
  NDir [(py "docs",
         NDir [(py "b.pdf", NFile (Ok one_page));
               (py "a.pdf", NFile (Raise (Exception (py "damaged"))));
               (py "old", NDir [(py "c.pdf", NFile (Ok one_page))]);
               (py "notes.txt", NFile (Raise (Exception (py "not a PDF"))))])].

(** A folder with exactly two files: in enumeration order a readable
    [b.pdf] and a damaged [a.pdf]. *)
Definition tree_valid_corrupt : node Pdf.pdf_doc :=
  NDir [(py "docs",
         NDir [(py "b.pdf", NFile (Ok one_page));
               (py "a.pdf", NFile (Raise (Exception (py "damaged"))))])].

(** The same folder with two readable files, [b.pdf] enumerated first. *)
Definition tree_b_a : node Pdf.pdf_doc :=
  NDir [(py "docs",
         NDir [(py "b.pdf", NFile (Ok one_page));
               (py "a.pdf", NFile (Ok one_page))])].


(** Three pages, the second one blank. *)
Definition three_pages : Pdf.pdf_doc :=
  {| Pdf.metadata := [(py "title", py "annual-report")];
     Pdf.pages := [page_of_text (py "one"); page_of_text (py "  ");
                   scanned_page (py "three")] |}.

(** A slide table of two rows and two columns, with a pipe in a cell. *)
Definition small_table : Pptx.table :=
  [[py "Item"; py "Qty"]; [py " nuts|bolts "; py "4"]].

(** A worksheet with an empty row, a trailing empty column and a cell that
    holds a pipe and a line break. *)
Definition small_sheet : Xlsx.sheet :=
  [[Xlsx.VStr (py "Item"); Xlsx.VStr (py "Qty"); Xlsx.VNone];
   [Xlsx.VNone; Xlsx.VNone; Xlsx.VNone];
   [Xlsx.VStr two_paragraphs; Xlsx.VInt 4; Xlsx.VNone]].

(** A folder that enumerates, in this order, a workbook in the old format,
    which the library does not open, a readable workbook, a damaged one and
    another readable one. *)
Definition excel_tree : node Xlsx.workbook :=
  NDir [(py "books",
         NDir [(py "old.xls",
                NFile (Raise (Exception (py "File is not a zip file"))));
               (py "new.xlsx", NFile (Ok [(py "Data", Xlsx.Worksheet [])]));
               (py "bad.xlsx",
                NFile (Raise (Exception (py "File is not a zip file"))));
               (py "more.xlsx",
                NFile (Ok [(py "Sheet1", Xlsx.Worksheet small_sheet)]))])].

(** A workbook with a worksheet and a chart sheet. *)
Definition with_chart : Xlsx.workbook :=
  [(py "Data", Xlsx.Worksheet small_sheet); (py "Chart1", Xlsx.Chartsheet)].

End Sample.

(** * Properties *)

Example clean_text_ex :
  Pdf.clean_text_for_markdown (py "  a   b



 c ") = py "a b


c".
Proof. vm_compute. reflexivity. Qed.


(** ** Joining and splitting *)

Lemma join_cons (sep p : pystr) (q : pystr) (rest : list pystr) :
  join sep (p :: q :: rest) = p ++ sep ++ join sep (q :: rest).
Proof. reflexivity. Qed.

Lemma split_on_nonempty (c : char) (s : pystr) : split_on c s <> [].
Proof.
  destruct s as [|x s]; simpl; [discriminate|].
  destruct (x =? c)%N; [discriminate|].
  destruct (split_on c s); discriminate.
Qed.

Lemma split_on_app_free (c : char) (w s : pystr) :
  ~ In c w ->
  split_on c (w ++ c :: s) = w :: split_on c s.
Proof.
  induction w as [|x w IH]; intros Hw; simpl.
  - now rewrite N.eqb_refl.
  - destruct (N.eqb_spec x c) as [->|_].
    + exfalso. apply Hw. now left.
    + rewrite IH; [reflexivity|]. intros H. apply Hw. now right.
Qed.

Lemma split_on_free (c : char) (w : pystr) :
  ~ In c w -> split_on c w = [w].
Proof.
  induction w as [|x w IH]; intros Hw; simpl; [reflexivity|].
  destruct (N.eqb_spec x c) as [->|_].
  - exfalso. apply Hw. now left.
  - rewrite IH; [reflexivity|]. intros H. apply Hw. now right.
Qed.

Lemma split_on_join (c : char) (parts : list pystr) :
  parts <> [] ->
  Forall (fun p => ~ In c p) parts ->
  split_on c (join [c] parts) = parts.
Proof.
  induction parts as [|p rest IH]; intros Hne Hfree; [congruence|].
  inversion Hfree as [|? ? Hp Hrest]; subst.
  destruct rest as [|q rest].
  - simpl. now apply split_on_free.
  - rewrite join_cons.
    change ([c] ++ join [c] (q :: rest)) with (c :: join [c] (q :: rest)).
    rewrite split_on_app_free by assumption.
    rewrite IH; [reflexivity|discriminate|assumption].
Qed.

Lemma join_snoc (sep p : pystr) (parts : list pystr) :
  parts <> [] ->
  join sep (parts ++ [p]) = join sep parts ++ sep ++ p.
Proof.
  induction parts as [|q rest IH]; intros Hne; [congruence|].
  destruct rest as [|r rest]; [reflexivity|].
  change ((q :: r :: rest) ++ [p]) with (q :: r :: (rest ++ [p])).
  rewrite !join_cons.
  change (r :: rest ++ [p]) with ((r :: rest) ++ [p]).
  rewrite IH by discriminate.
  now rewrite <- !app_assoc.
Qed.

Lemma rev_join (sep : pystr) (parts : list pystr) :
  rev (join sep parts) = join (rev sep) (map (@rev char) (rev parts)).
Proof.
  induction parts as [|p rest IH]; [reflexivity|].
  destruct rest as [|q rest]; [reflexivity|].
  rewrite join_cons, !rev_app_distr, IH.
  change (rev (p :: q :: rest)) with (rev (q :: rest) ++ [p]).
  rewrite map_app.
  change (map (@rev char) [p]) with [rev p].
  rewrite join_snoc.
  - now rewrite <- app_assoc.
  - simpl. destruct (rev rest); discriminate.
Qed.

Lemma in_join (c : char) (sep : pystr) (parts : list pystr) :
  In c (join sep parts) -> In c sep \/ exists p, In p parts /\ In c p.
Proof.
  induction parts as [|p rest IH]; [intros []|].
  destruct rest as [|q rest].
  - intros H. right. exists p. split; [now left|exact H].
  - rewrite join_cons. intros H.
    apply in_app_or in H as [H|H]; [right; exists p; split; [now left|exact H]|].
    apply in_app_or in H as [H|H]; [now left|].
    destruct (IH H) as [Hs|[w [Hw Hc]]]; [now left|].
    right. exists w. split; [now right|exact Hc].
Qed.

(** ** Words and stripping *)

Lemma word_rev (w : pystr) : word w -> word (rev w).
Proof.
  intros [Hne Hfree]. split.
  - intros H. apply Hne. now rewrite <- (rev_involutive w), H.
  - now apply Forall_rev.
Qed.

Lemma split_ws_words (s : pystr) : Forall word (split_ws s).
Proof.
  induction s as [|x s IH]; [constructor|].
  simpl. destruct (is_space x) eqn:Hx; [exact IH|].
  destruct s as [|y s'].
  - repeat constructor; [discriminate|exact Hx].
  - destruct (is_space y) eqn:Hy.
    + constructor; [|exact IH]. repeat constructor; [discriminate|exact Hx].
    + destruct (split_ws (y :: s')) as [|w ws].
      * repeat constructor; [discriminate|exact Hx].
      * inversion IH as [|? ? [Hne Hfree] Hws]; subst.
        constructor; [|exact Hws].
        split; [discriminate|now constructor].
Qed.

(** A word followed by nothing, or by white space, is split off whole. *)
Lemma split_ws_word_app (w s : pystr) :
  word w ->
  match s with [] => True | y :: _ => is_space y = true end ->
  split_ws (w ++ s) = w :: split_ws s.
Proof.
  intros [Hne Hfree] Hs.
  induction w as [|x w IH]; [congruence|].
  inversion Hfree as [|? ? Hx Hw]; subst.
  destruct w as [|x2 w].
  - simpl. rewrite Hx. destruct s as [|y s']; [reflexivity|].
    now rewrite Hs.
  - specialize (IH ltac:(discriminate) Hw).
    inversion Hw as [|? ? Hx2 _]; subst.
    change ((x :: x2 :: w) ++ s) with (x :: (x2 :: w) ++ s).
    change (split_ws (x :: (x2 :: w) ++ s))
      with (if is_space x then split_ws ((x2 :: w) ++ s)
            else if is_space x2 then [x] :: split_ws ((x2 :: w) ++ s)
            else match split_ws ((x2 :: w) ++ s) with
                 | [] => [[x]]
                 | w0 :: ws => (x :: w0) :: ws
                 end).
    now rewrite Hx, Hx2, IH.
Qed.

Lemma split_ws_join (ws : list pystr) :
  Forall word ws -> split_ws (join [SP] ws) = ws.
Proof.
  induction ws as [|w rest IH]; intros H; [reflexivity|].
  inversion H as [|? ? Hw Hrest]; subst.
  destruct rest as [|q rest].
  - simpl. rewrite <- (app_nil_r w) at 1.
    now rewrite split_ws_word_app.
  - rewrite join_cons.
    rewrite split_ws_word_app; [|assumption|reflexivity].
    change ([SP] ++ join [SP] (q :: rest)) with (SP :: join [SP] (q :: rest)).
    change (split_ws (SP :: join [SP] (q :: rest)))
      with (split_ws (join [SP] (q :: rest))).
    now rewrite IH.
Qed.

Lemma lstrip_join (ws : list pystr) :
  Forall word ws -> lstrip (join [SP] ws) = join [SP] ws.
Proof.
  intros H. destruct ws as [|w rest]; [reflexivity|].
  inversion H as [|? ? [Hne Hfree] _]; subst.
  destruct w as [|x w]; [congruence|].
  inversion Hfree as [|? ? Hx _]; subst.
  destruct rest as [|q rest]; simpl; now rewrite Hx.
Qed.

Lemma strip_join (ws : list pystr) :
  Forall word ws -> strip (join [SP] ws) = join [SP] ws.
Proof.
  intros H. unfold strip, rstrip.
  rewrite lstrip_join by assumption.
  rewrite rev_join. change (rev [SP]) with [SP].
  rewrite lstrip_join.
  - rewrite rev_join. change (rev [SP]) with [SP].
    rewrite <- map_rev, rev_involutive, map_map.
    rewrite (map_ext _ (fun w => w)) by apply rev_involutive.
    now rewrite map_id.
  - apply Forall_map, Forall_rev.
    eapply Forall_impl; [|exact H]. apply word_rev.
Qed.

(** ** The text normalizer *)

Lemma clean_line_join (line : pystr) :
  Pdf.clean_line line = join [SP] (split_ws (strip line)).
Proof.
  unfold Pdf.clean_line. destruct (strip line); reflexivity.
Qed.

Lemma clean_line_fixed (line : pystr) :
  Pdf.clean_line (Pdf.clean_line line) = Pdf.clean_line line.
Proof.
  rewrite (clean_line_join line).
  rewrite clean_line_join, strip_join, split_ws_join;
    auto using split_ws_words.
Qed.

Lemma clean_line_one_line (line : pystr) : ~ In NL (Pdf.clean_line line).
Proof.
  rewrite clean_line_join. intros H.
  apply in_join in H as [[H|[]]|[w [Hw Hc]]]; [discriminate|].
  pose proof (split_ws_words (strip line)) as Hall.
  rewrite Forall_forall in Hall. destruct (Hall w Hw) as [_ Hfree].
  rewrite Forall_forall in Hfree. specialize (Hfree NL Hc). discriminate.
Qed.

Lemma limit_blanks_cons (n : nat) (l : pystr) (rest : list pystr) :
  Pdf.limit_blanks n (l :: rest)
  = if negb (truthy l)
    then if S n <=? 2 then l :: Pdf.limit_blanks (S n) rest
         else Pdf.limit_blanks (S n) rest
    else l :: Pdf.limit_blanks 0 rest.
Proof. reflexivity. Qed.

Lemma limit_blanks_incl (n : nat) (ls : list pystr) (P : pystr -> Prop) :
  Forall P ls -> Forall P (Pdf.limit_blanks n ls).
Proof.
  revert n. induction ls as [|l rest IH]; intros n H; [constructor|].
  inversion H; subst. rewrite limit_blanks_cons.
  destruct (negb (truthy l)); [destruct (S n <=? 2)|]; auto.
Qed.

Lemma limit_blanks_nonempty (ls : list pystr) :
  ls <> [] -> Pdf.limit_blanks 0 ls <> [].
Proof.
  destruct ls as [|l rest]; [congruence|]. intros _.
  rewrite limit_blanks_cons.
  destruct (negb (truthy l)); discriminate.
Qed.

(** A second pass that starts with no more blank lines behind it than the
    first keeps every line. *)
Lemma limit_blanks_again (ls : list pystr) :
  forall n m, n <= m ->
  Pdf.limit_blanks n (Pdf.limit_blanks m ls) = Pdf.limit_blanks m ls.
Proof.
  induction ls as [|l rest IH]; intros n m Hnm; [reflexivity|].
  rewrite (limit_blanks_cons m). destruct (negb (truthy l)) eqn:Hl.
  - destruct (Nat.leb_spec (S m) 2) as [Hm|Hm].
    + rewrite limit_blanks_cons, Hl.
      destruct (Nat.leb_spec (S n) 2) as [_|Hn]; [|lia].
      f_equal. apply IH. lia.
    + apply IH. lia.
  - rewrite limit_blanks_cons, Hl. f_equal. apply IH. lia.
Qed.

(** C7: the text normalizer is idempotent: for every text,
    [clean_text_for_markdown] applied to its own result returns that
    result. *)
Theorem clean_text_for_markdown_idempotent (text : pystr) :
  Pdf.clean_text_for_markdown (Pdf.clean_text_for_markdown text)
  = Pdf.clean_text_for_markdown text.
Proof.
  unfold Pdf.clean_text_for_markdown.
  set (cleaned := map Pdf.clean_line (split_on NL text)).
  assert (Hfix : Forall (fun l => Pdf.clean_line l = l) cleaned).
  { apply Forall_map, Forall_forall. intros l _. apply clean_line_fixed. }
  assert (Hfree : Forall (fun l => ~ In NL l) cleaned).
  { apply Forall_map, Forall_forall. intros l _. apply clean_line_one_line. }
  assert (Hne : cleaned <> []).
  { unfold cleaned. pose proof (split_on_nonempty NL text) as H.
    destruct (split_on NL text); [congruence|discriminate]. }
  rewrite split_on_join;
    [|now apply limit_blanks_nonempty|now apply limit_blanks_incl].
  assert (Hmap : map Pdf.clean_line (Pdf.limit_blanks 0 cleaned)
                 = Pdf.limit_blanks 0 cleaned).
  { apply (limit_blanks_incl 0) in Hfix.
    induction Hfix as [|l ls Hl _ IH]; [reflexivity|].
    simpl. now rewrite Hl, IH. }
  rewrite Hmap. now rewrite limit_blanks_again.
Qed.

(** ** The text-page extractor *)

Lemma extract_direct (OCR : Pdf.ocr_engine) (p : Pdf.page) (raw : pystr) :
  Pdf.get_text p = Ok raw ->
  50 < length (strip raw) ->
  Pdf.extract_text_from_page OCR p = Ok (strip raw, Pdf.m_text).
Proof.
  intros Hraw Hlen. unfold Pdf.extract_text_from_page. rewrite Hraw. simpl.
  apply Nat.ltb_lt in Hlen. now rewrite Hlen.
Qed.


Lemma extract_short (OCR : Pdf.ocr_engine) (p : Pdf.page) (raw : pystr) :
  Pdf.get_text p = Ok raw ->
  length (strip raw) <= 50 ->
  Pdf.extract_text_from_page OCR p
  = match OCR with
    | Some image_to_string =>
        try_except
          (img <- Pdf.get_pixmap p 300 ;;
           recognised <- image_to_string img ;;
           if truthy (strip recognised)
           then Ok (strip recognised, Pdf.m_ocr)
           else Ok (whatever raw))
          (fun _ => Ok (whatever raw))
    | None => Ok (whatever raw)
    end.
Proof.
  intros Hraw Hlen. unfold Pdf.extract_text_from_page. rewrite Hraw. simpl.
  destruct (Nat.ltb_spec 50 (length (strip raw))) as [H|_]; [lia|].
  reflexivity.
Qed.

(** C10: whenever the text-page extractor returns a pair (text, tag), the tag
    is "none" exactly when the text is the empty string. *)
Theorem extract_none_iff_empty (OCR : Pdf.ocr_engine) (p : Pdf.page)
    (text : pystr) (tag : Pdf.method) :
  Pdf.extract_text_from_page OCR p = Ok (text, tag) ->
  tag = Pdf.m_none <-> text = [].
Proof.
  assert (Hw : forall raw, Ok (whatever raw) = Ok (text, tag) ->
                           tag = Pdf.m_none <-> text = []).
  { intros raw H. injection H as <- <-.
    destruct (strip raw); simpl; split; congruence. }
  destruct (Pdf.get_text p) as [raw|e] eqn:Hraw.
  - destruct (Nat.le_gt_cases (length (strip raw)) 50) as [Hlen|Hlen].
    + rewrite (extract_short OCR p Hraw Hlen).
      destruct OCR as [image_to_string|]; [|apply Hw].
      destruct (Pdf.get_pixmap p 300) as [img|[m|]]; simpl;
        [|apply Hw|discriminate].
      destruct (image_to_string img) as [recognised|[m|]]; simpl;
        [|apply Hw|discriminate].
      destruct (strip recognised) as [|c s] eqn:Hrec; simpl; [apply Hw|].
      intros H. injection H as <- <-. split; discriminate.
    + rewrite (extract_direct OCR p Hraw Hlen).
      intros H. injection H as <- <-.
      destruct (strip raw); [simpl in Hlen; lia|]. split; discriminate.
  - unfold Pdf.extract_text_from_page. rewrite Hraw. discriminate.
Qed.

Lemma extract_none_iff_empty_witness :
  Pdf.extract_text_from_page None (Sample.page_of_text (py "   "))
  = Ok ([], Pdf.m_none)
  /\ (Pdf.m_none = Pdf.m_none <-> @nil char = []).
Proof.
  split; [reflexivity|].
  apply (@extract_none_iff_empty None (Sample.page_of_text (py "   "))).
  reflexivity.
Defined.

(** C2, as the code has it: a page whose trimmed direct text is longer than
    50 characters is tagged "text" with that text unchanged; a page whose
    trimmed direct text has at most 50 characters (49, or exactly 50) is,
    when no recognition is available, tagged "text" with that text if it is
    not empty and "none" only if it is empty; and when the recognition is
    available and reads a text that is not empty after trimming, such a page
    is tagged "ocr" with the recognised text. *)
Theorem extract_threshold (p : Pdf.page) (raw : pystr) :
  Pdf.get_text p = Ok raw ->
  (50 < length (strip raw) ->
   forall OCR, Pdf.extract_text_from_page OCR p = Ok (strip raw, Pdf.m_text))
  /\ (length (strip raw) <= 50 ->
      Pdf.extract_text_from_page None p
      = Ok (strip raw, if truthy (strip raw) then Pdf.m_text else Pdf.m_none))
  /\ (length (strip raw) <= 50 ->
      forall image_to_string img recognised,
        Pdf.get_pixmap p 300 = Ok img ->
        image_to_string img = Ok recognised ->
        truthy (strip recognised) = true ->
        Pdf.extract_text_from_page (Some image_to_string) p
        = Ok (strip recognised, Pdf.m_ocr)).
Proof.
  intros Hraw. repeat split.
  - intros Hlen OCR. now apply extract_direct.
  - intros Hlen. now rewrite (extract_short None p Hraw Hlen).
  - intros Hlen image_to_string img recognised Himg Hrec Hne.
    rewrite (extract_short (Some image_to_string) p Hraw Hlen).
    rewrite Himg. simpl. rewrite Hrec. simpl. now rewrite Hne.
Qed.

Lemma extract_threshold_witness :
  Pdf.get_text (Sample.page_of_text (Sample.letters 50))
  = Ok (Sample.letters 50)
  /\ Pdf.extract_text_from_page None (Sample.page_of_text (Sample.letters 50))
     = Ok (Sample.letters 50, Pdf.m_text).
Proof.
  split; [reflexivity|].
  assert (Hraw : Pdf.get_text (Sample.page_of_text (Sample.letters 50))
                 = Ok (Sample.letters 50)) by reflexivity.
  destruct (extract_threshold (Sample.page_of_text (Sample.letters 50)) Hraw)
    as [_ [Hshort _]].
  apply Hshort. vm_compute. lia.
Defined.

(** C2, as stated, fails: with the recognition unavailable a page whose
    trimmed direct text has 49 characters is tagged "text", not "none"; and a
    page whose trimmed direct text has exactly 50 characters is tagged "ocr"
    when the recognition reads something. *)
Lemma extract_threshold_counterexample :
  length (strip (Sample.letters 49)) = 49
  /\ Pdf.extract_text_from_page None (Sample.page_of_text (Sample.letters 49))
     = Ok (Sample.letters 49, Pdf.m_text)
  /\ length (strip (Sample.letters 50)) = 50
  /\ Pdf.extract_text_from_page (Some (Sample.fixed_engine (py "scan")))
       (Sample.scanned_page (Sample.letters 50))
     = Ok (py "scan", Pdf.m_ocr).
Proof. repeat split. Qed.

(** ** Faults *)

Lemma process_pages_fault (OCR : Pdf.ocr_engine) (total : nat) (p : Pdf.page)
    (ps : list Pdf.page) :
  In p ps ->
  (exists e, Pdf.extract_text_from_page OCR p = Raise e) ->
  forall page_num md_parts methods_used,
  exists e,
    Pdf.process_pages OCR total page_num ps md_parts methods_used = Raise e.
Proof.
  intros Hin [e He].
  induction ps as [|q rest IH]; [destruct Hin|].
  intros page_num md_parts methods_used. simpl.
  destruct (Pdf.extract_text_from_page OCR q) as [[text method]|e'] eqn:Hq.
  - destruct Hin as [->|Hin]; [congruence|]. simpl. now apply IH.
  - now exists e'.
Qed.

(** C1, as the code has it: in the text-page extractor a fault of the
    recognition path (rendering the page, or the recognition itself) that is
    an [Exception] is caught, and the extractor falls back to the trimmed
    direct text, tagged "text" if it is not empty and "none" if it is; a
    fault of the direct-text retrieval is not caught: the extractor raises
    it, and the conversion of a document that has such a page raises. *)
Theorem extract_fault_containment (p : Pdf.page) :
  (forall raw image_to_string m,
     Pdf.get_text p = Ok raw ->
     length (strip raw) <= 50 ->
     Pdf.get_pixmap p 300 = Raise (Exception m)
     \/ (exists img, Pdf.get_pixmap p 300 = Ok img
                     /\ image_to_string img = Raise (Exception m)) ->
     Pdf.extract_text_from_page (Some image_to_string) p
     = Ok (strip raw, if truthy (strip raw) then Pdf.m_text else Pdf.m_none))
  /\ (forall e OCR,
        Pdf.get_text p = Raise e ->
        Pdf.extract_text_from_page OCR p = Raise e
        /\ forall input_path doc,
             In p (Pdf.pages doc) ->
             exists e', Pdf.build_md_parts OCR input_path doc = Raise e').
Proof.
  split.
  - intros raw image_to_string m Hraw Hlen Hfault.
    rewrite (extract_short (Some image_to_string) p Hraw Hlen).
    destruct Hfault as [Hpix|[img [Hpix Hrec]]]; rewrite Hpix; simpl;
      [reflexivity|].
    now rewrite Hrec.
  - intros e OCR Hraw.
    assert (He : Pdf.extract_text_from_page OCR p = Raise e).
    { unfold Pdf.extract_text_from_page. now rewrite Hraw. }
    split; [exact He|].
    intros input_path doc Hin. unfold Pdf.build_md_parts.
    apply process_pages_fault with (p := p); [exact Hin|now exists e].
Qed.

(** C1, as stated, fails: a fault while retrieving the direct text of a page
    leaves the extractor as an exception, not as an empty result tagged
    "none", and the conversion of a two-page document whose second page has
    the fault raises it. *)
Lemma extract_fault_counterexample :
  Pdf.extract_text_from_page None Sample.faulty_page
  = Raise (Exception (py "bad xref"))
  /\ Pdf.build_md_parts None [py "report.pdf"]
       {| Pdf.metadata := [];
          Pdf.pages := [Sample.page_of_text (py "first page");
                        Sample.faulty_page] |}
     = Raise (Exception (py "bad xref")).
Proof. split; reflexivity. Qed.

Lemma extract_fault_containment_witness :
  Pdf.extract_text_from_page (Some Sample.failing_engine)
    (Sample.scanned_page (py " short "))
  = Ok (py "short", Pdf.m_text).
Proof.
  destruct (extract_fault_containment (Sample.scanned_page (py " short ")))
    as [Hcaught _].
  apply (Hcaught (py " short ") Sample.failing_engine
                 (py "tesseract not found")).
  - reflexivity.
  - vm_compute. lia.
  - right. exists []. split; reflexivity.
Defined.

(** ** Headings of the units *)

Lemma join_head (sep p : pystr) (rest : list pystr) :
  exists tail, join sep (p :: rest) = p ++ tail.
Proof.
  destruct rest as [|q rest].
  - exists []. simpl. now rewrite app_nil_r.
  - exists (sep ++ join sep (q :: rest)). apply join_cons.
Qed.

Lemma str_eqb_refl (s : pystr) : str_eqb s s = true.
Proof.
  induction s as [|c s IH]; [reflexivity|].
  simpl. now rewrite N.eqb_refl.
Qed.

Lemma convert_slide_heading (sl : Pptx.slide) (n : nat) :
  exists tail,
    Pptx.convert_slide_to_markdown sl n
    = (py "## Slide " ++ str_of_nat n) ++ tail.
Proof.
  unfold Pptx.convert_slide_to_markdown.
  set (h := py "## Slide " ++ str_of_nat n).
  destruct (Pptx.title sl) as [t|];
    [destruct (truthy (strip (Pptx.text_of t)))|];
    destruct (Pptx.content_of sl (Pptx.shapes sl));
    destruct (Pptx.notes sl) as [[notes_text|]|];
    try destruct (truthy (strip notes_text));
    apply join_head.
Qed.

Lemma convert_sheet_heading (sh : Xlsx.sheet) (sheet_name : pystr) :
  exists tail,
    Xlsx.convert_sheet_to_markdown sh sheet_name
    = (py "## " ++ sheet_name) ++ tail.
Proof.
  unfold Xlsx.convert_sheet_to_markdown.
  destruct sh as [|row sh]; [apply join_head|].
  destruct (Xlsx.data_rows (row :: sh)); [apply join_head|].
  destruct (Xlsx.max_cols_from 0 (l :: l0) =? 0); apply join_head.
Qed.

Lemma nth_error_after {A : Type} (pre : list A) (x : A) (body : list A)
    (j : nat) :
  nth_error (pre ++ x :: body) (S (length pre + j)) = nth_error body j.
Proof. induction pre as [|a pre IH]; simpl; auto. Qed.

Lemma nth_error_after_title {A : Type} (t c r : A) (contents body : list A)
    (j : nat) :
  nth_error ([t; c] ++ contents ++ [r] ++ body) (3 + length contents + j)
  = nth_error body j.
Proof.
  change ([t; c] ++ contents ++ [r] ++ body)
    with (t :: c :: (contents ++ r :: body)).
  change (3 + length contents + j) with (S (S (S (length contents + j)))).
  cbn [nth_error]. apply nth_error_after.
Qed.

Lemma slide_parts_nth (slides : list Pptx.slide) :
  forall n k sl,
    nth_error slides k = Some sl ->
    nth_error (Pptx.slide_parts n slides) (2 * k)
    = Some (Pptx.convert_slide_to_markdown sl (n + k)).
Proof.
  induction slides as [|s rest IH]; intros n k sl Hk; [now destruct k|].
  destruct k as [|k].
  - injection Hk as ->. simpl. now rewrite Nat.add_0_r.
  - replace (2 * S k) with (S (S (2 * k))) by lia.
    simpl in Hk. cbn [Pptx.slide_parts app nth_error].
    rewrite (IH (S n) k sl Hk). f_equal. f_equal. lia.
Qed.

Lemma sheet_parts_nth (wb : Xlsx.workbook) (names : list pystr) :
  forall body k sheet_name,
    Xlsx.sheet_parts wb names = Ok body ->
    nth_error names k = Some sheet_name ->
    exists tail,
      nth_error body (2 * k) = Some ((py "## " ++ sheet_name) ++ tail).
Proof.
  induction names as [|n rest IH]; intros body k sheet_name Hbody Hk;
    [now destruct k|].
  cbn [Xlsx.sheet_parts] in Hbody.
  destruct (Xlsx.getitem wb n) as [obj|e]; [|discriminate].
  cbn [bind] in Hbody. unfold Xlsx.convert_sheet_object in Hbody.
  destruct (Xlsx.iter_rows obj) as [rows|e]; [|discriminate].
  cbn [bind] in Hbody.
  destruct (Xlsx.sheet_parts wb rest) as [more|e]; [|discriminate].
  cbn [bind] in Hbody. injection Hbody as <-.
  destruct k as [|k].
  - injection Hk as ->. simpl.
    destruct (convert_sheet_heading rows sheet_name) as [tail Htail].
    exists tail. now rewrite Htail.
  - replace (2 * S k) with (S (S (2 * k))) by lia.
    simpl in Hk. cbn [app nth_error]. now apply (IH more k sheet_name).
Qed.

(** C4, as the code has it: a PDF document with exactly one page has no
    per-page heading among its blocks (its blocks are the title block and,
    if the extracted text is not empty, the cleaned text), and a PDF document
    with exactly two pages has, for each page whose extracted text is not
    empty, the blocks "## Page <ordinal>", the cleaned text and "---", page 1
    before page 2; in a slide deck every slide, and in a workbook that
    converts every sheet, has its own block, in unit order, that starts with
    the level-2 heading of the unit ("## Slide <ordinal>", "## <sheet
    name>"), also when the document has exactly one unit. *)
Theorem per_unit_headings :
  (forall OCR input_path doc p text tag,
     Pdf.pages doc = [p] ->
     Pdf.extract_text_from_page OCR p = Ok (text, tag) ->
     exists t,
       Pdf.build_md_parts OCR input_path doc
       = Ok (Pdf.header input_path doc
             ++ (if truthy text then [Pdf.clean_text_for_markdown text]
                 else []), t))
  /\ (forall OCR input_path doc p1 p2 text1 tag1 text2 tag2,
        Pdf.pages doc = [p1; p2] ->
        Pdf.extract_text_from_page OCR p1 = Ok (text1, tag1) ->
        Pdf.extract_text_from_page OCR p2 = Ok (text2, tag2) ->
        exists t,
          Pdf.build_md_parts OCR input_path doc
          = Ok (Pdf.header input_path doc
                ++ (if truthy text1
                    then [py "## Page 1"; Pdf.clean_text_for_markdown text1;
                          py "---"]
                    else [])
                ++ (if truthy text2
                    then [py "## Page 2"; Pdf.clean_text_for_markdown text2;
                          py "---"]
                    else []), t))
  /\ (forall input_path prs k sl,
        nth_error prs k = Some sl ->
        exists tail,
          nth_error (Pptx.build_md_parts input_path prs) (3 + 2 * k)
          = Some ((py "## Slide " ++ str_of_nat (S k)) ++ tail))
  /\ (forall input_path wb parts k sheet_name obj,
        Xlsx.build_md_parts input_path wb = Ok parts ->
        nth_error wb k = Some (sheet_name, obj) ->
        exists tail,
          nth_error parts (3 + length (Xlsx.contents wb) + 2 * k)
          = Some ((py "## " ++ sheet_name) ++ tail)).
Proof.
  repeat split.
  - intros OCR input_path doc p text tag Hp He.
    unfold Pdf.build_md_parts. rewrite Hp.
    generalize (Pdf.header input_path doc) as h. intros h.
    simpl. rewrite He. simpl.
    eexists. destruct (truthy text); [reflexivity|].
    now rewrite app_nil_r.
  - intros OCR input_path doc p1 p2 text1 tag1 text2 tag2 Hp He1 He2.
    unfold Pdf.build_md_parts. rewrite Hp.
    generalize (Pdf.header input_path doc) as h. intros h.
    simpl. rewrite He1. simpl. rewrite He2. simpl.
    eexists. destruct (truthy text1), (truthy text2);
      rewrite <- ?app_assoc, ?app_nil_r; reflexivity.
  - intros input_path prs k sl Hk.
    destruct (convert_slide_heading sl (S k)) as [tail Htail].
    exists tail. unfold Pptx.build_md_parts.
    cbn [app nth_error plus]. rewrite (slide_parts_nth prs 1 k Hk).
    now rewrite <- Htail.
  - intros input_path wb parts k sheet_name obj Hparts Hk.
    unfold Xlsx.build_md_parts in Hparts.
    destruct (Xlsx.sheet_parts wb (Xlsx.sheetnames wb)) as [body|e] eqn:Hbody;
      [|discriminate].
    cbn [bind] in Hparts. injection Hparts as <-.
    assert (Hname : nth_error (Xlsx.sheetnames wb) k = Some sheet_name).
    { unfold Xlsx.sheetnames. now rewrite nth_error_map, Hk. }
    destruct (sheet_parts_nth wb _ k Hbody Hname) as [tail Htail].
    exists tail.
    refine (eq_trans (nth_error_after_title _ _ _ _ _ _) Htail).
Qed.

Lemma per_unit_headings_witness :
  exists t,
    Pdf.build_md_parts None [py "two_pages.pdf"] Sample.two_pages
    = Ok ([py "# Two Pages"; py "*Converted from: two_pages.pdf*"; py "---";
           py "## Page 1"; py "first page"; py "---";
           py "## Page 2"; py "second"; py "---"], t).
Proof.
  destruct per_unit_headings as [_ [Htwo _]].
  apply (Htwo None [py "two_pages.pdf"] Sample.two_pages
              (Sample.page_of_text (py "first  page"))
              (Sample.page_of_text (py "second"))
              (py "first  page") Pdf.m_text (py "second") Pdf.m_text);
    reflexivity.
Defined.

(** C4, as stated, fails: the blocks of a deck with exactly one slide, here
    a slide with nothing on it, include the per-slide heading "## Slide 1",
    and the blocks of a workbook with exactly one sheet include the heading
    of that sheet. *)
Lemma per_unit_headings_counterexample :
  Pptx.build_md_parts [py "deck.pptx"] [Sample.bare_slide]
  = [py "# Deck"; py "*Converted from: deck.pptx*"; py "---";
     py "## Slide 1"; py "---"]
  /\ Xlsx.build_md_parts [py "book.xlsx"] [(py "Data", Xlsx.Worksheet [])]
     = Ok [py "# Book"; py "*Converted from: book.xlsx*"; py "---";
           py "## Data" ++ [NL; NL] ++ py "*Empty sheet*"; py "---"].
Proof. split; reflexivity. Qed.

(** ** Empty sheets *)

Lemma filter_again {A : Type} (f : A -> bool) (l : list A) :
  filter f (filter f l) = filter f l.
Proof.
  induction l as [|a l IH]; [reflexivity|].
  simpl. destruct (f a) eqn:Hf; [|exact IH].
  simpl. now rewrite Hf, IH.
Qed.

Lemma data_rows_all_none (sh : Xlsx.sheet) :
  Forall (Forall (fun v => v = Xlsx.VNone)) sh -> Xlsx.data_rows sh = [].
Proof.
  induction 1 as [|row sh Hrow _ IH]; [reflexivity|].
  unfold Xlsx.data_rows in *. simpl.
  assert (Hnone : existsb Xlsx.is_not_none row = false).
  { induction Hrow as [|v row -> _ IHrow]; [reflexivity|exact IHrow]. }
  now rewrite Hnone.
Qed.

(** C5, as the code has it: for every worksheet grid the rows whose every
    cell is null are dropped (the output is that of the grid without them),
    a grid whose every cell is null yields the sheet heading followed by the
    marker "*Empty sheet*", and the output is either that marker or a table
    of at least one column built from the rows kept.  A cell holding a blank
    string is not null. *)
Theorem empty_sheet_marker (sh : Xlsx.sheet) (sheet_name : pystr) :
  Xlsx.convert_sheet_to_markdown sh sheet_name
  = Xlsx.convert_sheet_to_markdown (Xlsx.data_rows sh) sheet_name
  /\ (Forall (Forall (fun v => v = Xlsx.VNone)) sh ->
      Xlsx.convert_sheet_to_markdown sh sheet_name
      = join [NL; NL] [py "## " ++ sheet_name; py "*Empty sheet*"])
  /\ (Xlsx.convert_sheet_to_markdown sh sheet_name
      = join [NL; NL] [py "## " ++ sheet_name; py "*Empty sheet*"]
      \/ exists max_cols,
           0 < max_cols
           /\ Xlsx.data_rows sh <> []
           /\ Xlsx.convert_sheet_to_markdown sh sheet_name
              = join [NL; NL]
                  [py "## " ++ sheet_name;
                   join [NL]
                     (Xlsx.table_rows_from max_cols 0 (Xlsx.data_rows sh))]).
Proof.
  repeat split.
  - unfold Xlsx.convert_sheet_to_markdown.
    destruct sh as [|row sh]; [reflexivity|].
    pose proof (filter_again (fun r => existsb Xlsx.is_not_none r) (row :: sh))
      as Hagain.
    fold (Xlsx.data_rows (row :: sh)) in Hagain.
    fold (Xlsx.data_rows (Xlsx.data_rows (row :: sh))) in Hagain.
    destruct (Xlsx.data_rows (row :: sh)) as [|r rs]; [reflexivity|].
    now rewrite Hagain.
  - intros Hnone. unfold Xlsx.convert_sheet_to_markdown.
    rewrite (data_rows_all_none Hnone). destruct sh; reflexivity.
  - unfold Xlsx.convert_sheet_to_markdown.
    destruct sh as [|row sh]; [now left|].
    destruct (Xlsx.data_rows (row :: sh)) as [|r rs] eqn:Hrows; [now left|].
    destruct (Nat.eqb_spec (Xlsx.max_cols_from 0 (r :: rs)) 0) as [|Hcols];
      [now left|].
    right. exists (Xlsx.max_cols_from 0 (r :: rs)).
    repeat split; [lia|discriminate].
Qed.

Lemma empty_sheet_marker_witness :
  Xlsx.convert_sheet_to_markdown
    [[Xlsx.VNone; Xlsx.VNone]; [Xlsx.VNone; Xlsx.VNone]] (py "Q1")
  = py "## Q1" ++ [NL; NL] ++ py "*Empty sheet*".
Proof.
  destruct (empty_sheet_marker
              [[Xlsx.VNone; Xlsx.VNone]; [Xlsx.VNone; Xlsx.VNone]] (py "Q1"))
    as [_ [Hnone _]].
  apply Hnone. repeat constructor.
Defined.

(** C5, as stated, fails: a worksheet grid whose only cell is a blank string
    yields a table, not the marker; and a slide table whose only cell is
    blank yields a table as well. *)
Lemma empty_sheet_marker_counterexample :
  Xlsx.convert_sheet_to_markdown [[Xlsx.VStr (py " ")]] (py "Q1")
  = py "## Q1" ++ [NL; NL] ++ py "|  |" ++ [NL] ++ py "| --- |"
  /\ Pptx.convert_table_to_markdown [[py " "]]
     = py "|  |" ++ [NL] ++ py "| --- |".
Proof. split; reflexivity. Qed.

(** ** Shapes *)



(** ** Table cells *)

(** C3 on the slide converter: a table of one row whose only cell holds a
    pipe and a line break comes out on three lines, the row cut in two
    before the separator row: the pipe is escaped, the line break is left
    in the cell. *)
Theorem pptx_cell_line_break_kept :
  lines (Pptx.convert_table_to_markdown [[Sample.two_paragraphs]])
  = [py "| a\|b"; py "c |"; py "| --- |"].
Proof. reflexivity. Qed.

(** C8 on the slide converter: in a table of one row and two columns whose
    first cell holds a line break, the lines have one, two and three
    delimiting pipes, not three each. *)
Theorem pptx_table_pipe_counts :
  map count_delims
      (lines (Pptx.convert_table_to_markdown
                [[py "a" ++ [NL] ++ py "b"; py "c"]]))
  = [1; 2; 3].
Proof. reflexivity. Qed.

(** ** Worksheet cells and rows *)

Lemma count_delims_from_app (s t : pystr) :
  forall escaped,
    count_delims_from escaped (s ++ t)
    = count_delims_from escaped s
      + count_delims_from (escaped_after escaped s) t.
Proof.
  induction s as [|c s IH]; intros escaped; [reflexivity|].
  simpl. rewrite IH. lia.
Qed.

Lemma escaped_replace (s : pystr) :
  forall escaped,
    count_delims_from escaped
      (replace NL (py "<br>") (replace PIPE (py "\|") s)) = 0.
Proof.
  induction s as [|c s IH]; intros escaped; [reflexivity|].
  unfold replace in *. simpl flat_map.
  destruct (N.eqb_spec c PIPE) as [->|Hpipe].
  - simpl. apply IH.
  - simpl app. simpl flat_map.
    destruct (N.eqb_spec c NL) as [->|Hnl].
    + simpl. apply IH.
    + simpl. rewrite IH.
      apply N.eqb_neq in Hpipe. now rewrite Hpipe.
Qed.

Lemma replace_no_line_break (s new : pystr) :
  ~ In NL new -> ~ In NL (replace NL new s).
Proof.
  intros Hnew H. unfold replace in H.
  apply in_flat_map in H as [c [_ Hc]].
  destruct (c =? NL)%N eqn:Hne; [now apply Hnew|].
  destruct Hc as [->|[]]. now rewrite N.eqb_refl in Hne.
Qed.

(** On the worksheet side, a cleaned cell is inert: its pipes are escaped
    and its line breaks replaced. *)
Lemma clean_cell_value_inert (v : Xlsx.value) :
  inert (Xlsx.clean_cell_value v).
Proof.
  assert (Hbr : ~ In NL (py "<br>")).
  { simpl. intros [H|[H|[H|[H|[]]]]]; discriminate. }
  split.
  - intros escaped. destruct v; try apply escaped_replace. reflexivity.
  - destruct v; try (now apply replace_no_line_break). intros [].
Qed.

Lemma count_delims_row (cells : list pystr) :
  Forall inert cells ->
  cells <> [] ->
  forall escaped,
    count_delims_from escaped (join (py " | ") cells ++ py " |")
    = length cells.
Proof.
  induction cells as [|c rest IH]; intros Hall Hne escaped; [congruence|].
  inversion Hall as [|? ? [Hc _] Hrest]; subst.
  destruct rest as [|c2 rest].
  - simpl join. rewrite count_delims_from_app, Hc. reflexivity.
  - rewrite join_cons, <- !app_assoc, count_delims_from_app, Hc.
    change (py " | " ++ join (py " | ") (c2 :: rest) ++ py " |")
      with (SP :: PIPE :: SP :: (join (py " | ") (c2 :: rest) ++ py " |")).
    cbn [count_delims_from plus].
    change (SP =? PIPE)%N with false. change (SP =? BACKSLASH)%N with false.
    change (PIPE =? PIPE)%N with true. change (PIPE =? BACKSLASH)%N with false.
    cbn [andb negb plus].
    rewrite IH by (assumption || discriminate). reflexivity.
Qed.

Lemma row_well_formed (cells : list pystr) :
  Forall inert cells ->
  cells <> [] ->
  count_delims (py "| " ++ join (py " | ") cells ++ py " |")
  = length cells + 1
  /\ ~ In NL (py "| " ++ join (py " | ") cells ++ py " |").
Proof.
  intros Hall Hne. split.
  - unfold count_delims.
    change (py "| " ++ join (py " | ") cells ++ py " |")
      with (PIPE :: SP :: (join (py " | ") cells ++ py " |")).
    cbn [count_delims_from].
    change (PIPE =? PIPE)%N with true. change (PIPE =? BACKSLASH)%N with false.
    change (SP =? PIPE)%N with false. change (SP =? BACKSLASH)%N with false.
    cbn [andb negb plus].
    rewrite count_delims_row by assumption. lia.
  - intros H. apply in_app_or in H as [H|H].
    { simpl in H. destruct H as [H|[H|[]]]; discriminate. }
    apply in_app_or in H as [H|H].
    2:{ simpl in H. destruct H as [H|[H|[]]]; discriminate. }
    apply in_join in H as [H|[c [Hin Hc]]].
    { simpl in H. destruct H as [H|[H|[H|[]]]]; discriminate. }
    rewrite Forall_forall in Hall. destruct (Hall c Hin) as [_ Hfree].
    now apply Hfree.
Qed.

Lemma rule_inert : inert (py "---").
Proof.
  split; [intros []; reflexivity|].
  simpl. intros [H|[H|[H|[]]]]; discriminate.
Qed.

(** On the worksheet side every line of the table has one more delimiting
    pipe than the table has columns, and is one line. *)
Lemma xlsx_table_rows_well_formed (max_cols : nat) (rows : list (list Xlsx.value)) :
  0 < max_cols ->
  forall row_idx,
    Forall (fun line => count_delims line = max_cols + 1 /\ ~ In NL line)
           (Xlsx.table_rows_from max_cols row_idx rows).
Proof.
  intros Hcols. induction rows as [|row rest IH]; intros row_idx;
    [constructor|].
  change (Xlsx.table_rows_from max_cols row_idx (row :: rest))
    with (Xlsx.table_row_lines max_cols row_idx row
          ++ Xlsx.table_rows_from max_cols (S row_idx) rest).
  apply Forall_app. split; [|apply IH].
  unfold Xlsx.table_row_lines.
  set (cells := firstn max_cols row
                ++ repeat Xlsx.VNone (max_cols - length (firstn max_cols row))).
  assert (Hlen : length cells = max_cols).
  { unfold cells. rewrite length_app, repeat_length, length_firstn. lia. }
  assert (Hrow : Forall inert (map Xlsx.clean_cell_value cells)).
  { apply Forall_map, Forall_forall. intros v _. apply clean_cell_value_inert. }
  assert (Hne : map Xlsx.clean_cell_value cells <> []).
  { intros H. apply (f_equal (@length _)) in H.
    rewrite length_map, Hlen in H. simpl in H. lia. }
  apply Forall_app. split.
  - constructor; [|constructor].
    rewrite <- Hlen at 1. rewrite <- (length_map Xlsx.clean_cell_value cells).
    now apply row_well_formed.
  - destruct (row_idx =? 0); [|constructor].
    constructor; [|constructor].
    rewrite <- (repeat_length (py "---") max_cols) at 2.
    apply row_well_formed.
    + apply Forall_forall. intros c Hc.
      apply repeat_spec in Hc. subst c. apply rule_inert.
    + destruct max_cols; [lia|discriminate].
Qed.

Lemma xlsx_table_lines (max_cols : nat) (rows : list (list Xlsx.value)) :
  0 < max_cols ->
  rows <> [] ->
  Forall (fun line => count_delims line = max_cols + 1)
         (lines (join [NL] (Xlsx.table_rows_from max_cols 0 rows))).
Proof.
  intros Hcols Hne.
  pose proof (xlsx_table_rows_well_formed rows Hcols 0) as Hall.
  unfold lines. rewrite split_on_join.
  - eapply Forall_impl; [|exact Hall]. now intros line [H _].
  - destruct rows as [|row rest]; [congruence|]. discriminate.
  - eapply Forall_impl; [|exact Hall]. now intros line [_ H].
Qed.

(** ** Batches *)

Lemma pdf_convert_each (OCR : Pdf.ocr_engine) (root : node Pdf.pdf_doc)
    (files : list path) :
  (forall f, In f files ->
             Pdf.convert_pdf_to_markdown OCR root f None <> Raise Interrupt) ->
  forall converted,
    Pdf.convert_each OCR root files converted
    = Ok (converted
          ++ flat_map
               (fun f =>
                  match Pdf.convert_pdf_to_markdown OCR root f None with
                  | Ok r => [fst r]
                  | Raise _ => []
                  end) files).
Proof.
  induction files as [|f rest IH]; intros Hno converted.
  - simpl. now rewrite app_nil_r.
  - simpl.
    pose proof (Hno f (or_introl eq_refl)) as Hf.
    destruct (Pdf.convert_pdf_to_markdown OCR root f None) as [r|[m|]];
      [| |congruence]; simpl.
    + rewrite IH by (intros g Hg; apply Hno; now right).
      now rewrite <- app_assoc.
    + apply IH. intros g Hg. apply Hno. now right.
Qed.

Lemma pptx_convert_each (root : node Pptx.presentation) (files : list path) :
  (forall f, In f files ->
             Pptx.convert_pptx_to_markdown root f None <> Raise Interrupt) ->
  forall converted,
    Pptx.convert_each root files converted
    = Ok (converted
          ++ flat_map
               (fun f =>
                  match Pptx.convert_pptx_to_markdown root f None with
                  | Ok r => [fst r]
                  | Raise _ => []
                  end) files).
Proof.
  induction files as [|f rest IH]; intros Hno converted.
  - simpl. now rewrite app_nil_r.
  - simpl.
    pose proof (Hno f (or_introl eq_refl)) as Hf.
    destruct (Pptx.convert_pptx_to_markdown root f None) as [r|[m|]];
      [| |congruence]; simpl.
    + rewrite IH by (intros g Hg; apply Hno; now right).
      now rewrite <- app_assoc.
    + apply IH. intros g Hg. apply Hno. now right.
Qed.

(** C6, as the code has it: for every directory, batch conversion takes the
    entries of the directory itself whose name ends with the extension, in
    the order the directory enumerates them (it neither sorts them nor
    descends into subdirectories), converts each, and returns the output
    paths of the files that converted, in that order; a file whose
    conversion raises an [Exception] is left out of the returned list and
    does not stop the batch, which raises nothing. *)
Theorem batch_convert_outputs :
  (forall OCR root folder entries,
     lookup root folder = Some (NDir entries) ->
     let pdf_files :=
       map (fun e => folder ++ [fst e])
           (filter (fun e => endswith (py ".pdf") (fst e)) entries) in
     (forall f, In f pdf_files ->
                Pdf.convert_pdf_to_markdown OCR root f None
                <> Raise Interrupt) ->
     Pdf.batch_convert OCR root folder
     = Ok (flat_map
             (fun f =>
                match Pdf.convert_pdf_to_markdown OCR root f None with
                | Ok r => [fst r]
                | Raise _ => []
                end) pdf_files))
  /\ (forall root folder entries,
        lookup root folder = Some (NDir entries) ->
        let pptx_files :=
          map (fun e => folder ++ [fst e])
              (filter (fun e => endswith (py ".pptx") (fst e)) entries) in
        (forall f, In f pptx_files ->
                   Pptx.convert_pptx_to_markdown root f None
                   <> Raise Interrupt) ->
        Pptx.batch_convert root folder
        = Ok (flat_map
                (fun f =>
                   match Pptx.convert_pptx_to_markdown root f None with
                   | Ok r => [fst r]
                   | Raise _ => []
                   end) pptx_files)).
Proof.
  split.
  - intros OCR root folder entries Hdir pdf_files Hno.
    unfold Pdf.batch_convert, is_dir, glob. rewrite Hdir. simpl negb. cbv iota.
    fold pdf_files.
    destruct pdf_files as [|f rest] eqn:Hfiles; [reflexivity|].
    now rewrite pdf_convert_each.
  - intros root folder entries Hdir pptx_files Hno.
    unfold Pptx.batch_convert, is_dir, glob. rewrite Hdir. simpl negb. cbv iota.
    fold pptx_files.
    destruct pptx_files as [|f rest] eqn:Hfiles; [reflexivity|].
    now rewrite pptx_convert_each.
Qed.

Lemma batch_convert_outputs_witness :
  Pdf.batch_convert None Sample.tree [py "docs"] = Ok [[py "docs"; py "b.md"]].
Proof.
  destruct batch_convert_outputs as [Hpdf _].
  rewrite (Hpdf None Sample.tree [py "docs"] _ eq_refl); [reflexivity|].
  intros f [<-|[<-|[]]]; discriminate.
Defined.

(** C6, as stated, fails: for a directory that enumerates a readable
    [b.pdf] before a damaged [a.pdf], the batch returns one output path and
    no failure outcome; and for a directory that enumerates a readable
    [b.pdf] before a readable [a.pdf], it returns [b.md] before [a.md],
    which is not the lexical order. *)
Lemma batch_convert_counterexample :
  Pdf.batch_convert None Sample.tree_valid_corrupt [py "docs"]
  = Ok [[py "docs"; py "b.md"]]
  /\ Pdf.batch_convert None Sample.tree_b_a [py "docs"]
     = Ok [[py "docs"; py "b.md"]; [py "docs"; py "a.md"]].
Proof. split; reflexivity. Qed.

(** * Further properties of the converters *)

(** ** The lines of a normalized text *)

Lemma lines_clean_text (text : pystr) :
  lines (Pdf.clean_text_for_markdown text)
  = Pdf.limit_blanks 0 (map Pdf.clean_line (lines text)).
Proof.
  unfold lines, Pdf.clean_text_for_markdown.
  apply split_on_join.
  - apply limit_blanks_nonempty.
    pose proof (split_on_nonempty NL text) as H.
    destruct (split_on NL text); [congruence|discriminate].
  - apply limit_blanks_incl, Forall_map, Forall_forall.
    intros l _. apply clean_line_one_line.
Qed.

Lemma limit_blanks_runs (ls : list pystr) :
  forall run n, run <= n ->
  blank_runs_within 2 run (Pdf.limit_blanks n ls) = true.
Proof.
  induction ls as [|l rest IH]; intros run n Hle; [reflexivity|].
  rewrite limit_blanks_cons. destruct (truthy l) eqn:Hl; simpl negb; cbv iota.
  - cbn [blank_runs_within]. rewrite Hl. apply IH. lia.
  - destruct (Nat.leb_spec (S n) 2) as [Hn|Hn].
    + cbn [blank_runs_within]. rewrite Hl.
      apply andb_true_intro. split; [apply Nat.leb_le; lia|apply IH; lia].
    + apply IH. lia.
Qed.

Lemma blank_runs_no_three (a b ls : list pystr) :
  forall run,
    blank_runs_within 2 run ls = true ->
    ls <> a ++ [[]; []; []] ++ b.
Proof.
  revert ls. induction a as [|x a IH]; intros ls run Hok Heq; subst ls.
  - simpl in Hok.
    destruct run as [|[|run]]; simpl in Hok; discriminate.
  - change ((x :: a) ++ [[]; []; []] ++ b)
      with (x :: (a ++ [[]; []; []] ++ b)) in Hok.
    cbn [blank_runs_within] in Hok.
    destruct (truthy x).
    + now apply (IH _ 0 Hok).
    + apply andb_prop in Hok as [_ Hok]. now apply (IH _ (S run) Hok).
Qed.

(** X1: the normalized text never has three blank lines in a row. *)
Theorem clean_text_no_three_blank_lines (text : pystr) (a b : list pystr) :
  lines (Pdf.clean_text_for_markdown text) <> a ++ [[]; []; []] ++ b.
Proof.
  rewrite lines_clean_text.
  apply blank_runs_no_three with (run := 0).
  now apply limit_blanks_runs.
Qed.

(** X2: every line of the normalized text is a sequence of words, free of
    white space, with exactly one space between two words: no white space
    at its ends, no tab, no double space. *)
Theorem clean_text_lines_are_words (text : pystr) :
  Forall (fun l => exists ws, Forall word ws /\ l = join [SP] ws)
         (lines (Pdf.clean_text_for_markdown text)).
Proof.
  rewrite lines_clean_text.
  apply limit_blanks_incl, Forall_map, Forall_forall. intros l _.
  exists (split_ws (strip l)). split; [apply split_ws_words|].
  apply clean_line_join.
Qed.

Lemma limit_blanks_keeps_text (ls : list pystr) :
  forall n, filter truthy (Pdf.limit_blanks n ls) = filter truthy ls.
Proof.
  induction ls as [|l rest IH]; intros n; [reflexivity|].
  rewrite limit_blanks_cons. destruct (truthy l) eqn:Hl; simpl negb; cbv iota.
  - simpl. now rewrite Hl, IH.
  - simpl filter at 2. rewrite Hl.
    destruct (S n <=? 2); [simpl; rewrite Hl|]; apply IH.
Qed.

Lemma limit_blanks_length (ls : list pystr) :
  forall n, length (Pdf.limit_blanks n ls) <= length ls.
Proof.
  induction ls as [|l rest IH]; intros n; [reflexivity|].
  rewrite limit_blanks_cons.
  destruct (negb (truthy l)); [destruct (S n <=? 2)|]; simpl;
    try (specialize (IH (S n)); lia); specialize (IH 0); lia.
Qed.

(** X3: the normalizer drops blank lines only: the lines of its result that
    are not blank are the cleaned lines of the input that are not blank, in
    the same order, and the result has no more lines than the input. *)
Theorem clean_text_keeps_text_lines (text : pystr) :
  filter truthy (lines (Pdf.clean_text_for_markdown text))
  = filter truthy (map Pdf.clean_line (lines text))
  /\ length (lines (Pdf.clean_text_for_markdown text))
     <= length (lines text).
Proof.
  rewrite lines_clean_text. split.
  - apply limit_blanks_keeps_text.
  - rewrite <- (length_map Pdf.clean_line (lines text)).
    apply limit_blanks_length.
Qed.

(** ** What the text-page extractor returns and raises *)

Lemma lstrip_again (s : pystr) : lstrip (lstrip s) = lstrip s.
Proof.
  induction s as [|c s IH]; [reflexivity|].
  simpl. destruct (is_space c) eqn:Hc; [exact IH|].
  simpl. now rewrite Hc.
Qed.

Lemma lstrip_snoc (u : pystr) (c : char) :
  is_space c = false -> exists w, lstrip (u ++ [c]) = w ++ [c].
Proof.
  intros Hc. induction u as [|x u IH].
  - exists []. simpl. now rewrite Hc.
  - simpl. destruct (is_space x); [exact IH|].
    now exists (x :: u).
Qed.

Lemma lstrip_rstrip (s : pystr) :
  lstrip s = s -> lstrip (rstrip s) = rstrip s.
Proof.
  intros Hs. destruct s as [|c s]; [reflexivity|].
  simpl in Hs. destruct (is_space c) eqn:Hc.
  - exfalso. apply (f_equal (@length _)) in Hs.
    assert (Hlen : forall t, length (lstrip t) <= length t).
    { induction t as [|x t IHt]; simpl; [lia|].
      destruct (is_space x); simpl; lia. }
    specialize (Hlen s). simpl in Hs. lia.
  - unfold rstrip. simpl rev.
    destruct (@lstrip_snoc (rev s) c Hc) as [w Hw]. rewrite Hw.
    rewrite rev_app_distr. simpl. now rewrite Hc.
Qed.

Lemma strip_again (s : pystr) : strip (strip s) = strip s.
Proof.
  unfold strip.
  rewrite (@lstrip_rstrip (lstrip s)) by apply lstrip_again.
  unfold rstrip. now rewrite rev_involutive, lstrip_again.
Qed.




(** X5: the text the extractor returns has no white space at its ends,
    whether it is the direct text or the recognised one. *)
Theorem extract_text_is_stripped (OCR : Pdf.ocr_engine) (p : Pdf.page)
    (text : pystr) (tag : Pdf.method) :
  Pdf.extract_text_from_page OCR p = Ok (text, tag) ->
  strip text = text.
Proof.
  assert (Hw : forall raw, Ok (whatever raw) = Ok (text, tag) ->
                           strip text = text).
  { intros raw H. injection H as <- _. apply strip_again. }
  destruct (Pdf.get_text p) as [raw|e] eqn:Hraw.
  - destruct (Nat.le_gt_cases (length (strip raw)) 50) as [Hlen|Hlen].
    + rewrite (extract_short OCR p Hraw Hlen).
      destruct OCR as [image_to_string|]; [|apply Hw].
      destruct (Pdf.get_pixmap p 300) as [img|[m|]]; simpl;
        [|apply Hw|discriminate].
      destruct (image_to_string img) as [recognised|[m|]]; simpl;
        [|apply Hw|discriminate].
      destruct (truthy (strip recognised)); [|apply Hw].
      intros H. injection H as <- _. apply strip_again.
    + rewrite (extract_direct OCR p Hraw Hlen).
      intros H. injection H as <- _. apply strip_again.
  - unfold Pdf.extract_text_from_page. rewrite Hraw. discriminate.
Qed.

Lemma extract_text_is_stripped_witness :
  strip (py "scan me") = py "scan me".
Proof.
  apply (@extract_text_is_stripped
           (Some (Sample.fixed_engine (py "  scan me ")))
           (Sample.scanned_page (py " ")) (py "scan me") Pdf.m_ocr).
  reflexivity.
Defined.

(** ** The pages of a document *)

Lemma process_pages_cons (OCR : Pdf.ocr_engine) (total page_num : nat)
    (p : Pdf.page) (rest : list Pdf.page) (md_parts : list pystr)
    (methods_used : Pdf.tally) (text : pystr) (tag : Pdf.method) :
  Pdf.extract_text_from_page OCR p = Ok (text, tag) ->
  Pdf.process_pages OCR total page_num (p :: rest) md_parts methods_used
  = Pdf.process_pages OCR total (S page_num) rest
      (md_parts ++ page_blocks total page_num text)
      (Pdf.incr methods_used tag).
Proof.
  intros He. simpl. rewrite He. simpl. f_equal.
  unfold page_blocks.
  destruct (truthy text), (1 <? total); simpl;
    rewrite <- ?app_assoc, ?app_nil_r; reflexivity.
Qed.

Lemma process_pages_tally (OCR : Pdf.ocr_engine) (total : nat)
    (ps : list Pdf.page) :
  forall page_num md_parts t parts t',
    Pdf.process_pages OCR total page_num ps md_parts t = Ok (parts, t') ->
    t' Pdf.m_text + t' Pdf.m_ocr + t' Pdf.m_none
    = t Pdf.m_text + t Pdf.m_ocr + t Pdf.m_none + length ps.
Proof.
  induction ps as [|p rest IH]; intros page_num md_parts t parts t' H.
  - simpl in H. injection H as _ <-. simpl. lia.
  - destruct (Pdf.extract_text_from_page OCR p) as [[text tag]|e] eqn:He.
    + erewrite process_pages_cons in H by exact He.
      apply IH in H. rewrite H. simpl length.
      destruct tag; unfold Pdf.incr; simpl; lia.
    + simpl in H. rewrite He in H. discriminate.
Qed.

(** X6: when a document converts, the counts per tag add up to the number
    of its pages: every page is counted once, under one tag. *)
Theorem methods_used_counts_every_page (OCR : Pdf.ocr_engine)
    (input_path : path) (doc : Pdf.pdf_doc) (parts : list pystr)
    (t : Pdf.tally) :
  Pdf.build_md_parts OCR input_path doc = Ok (parts, t) ->
  t Pdf.m_text + t Pdf.m_ocr + t Pdf.m_none = length (Pdf.pages doc).
Proof.
  intros H. apply process_pages_tally in H. exact H.
Qed.

Lemma methods_used_counts_every_page_witness :
  exists parts t,
    Pdf.build_md_parts (Some (Sample.fixed_engine (py "3")))
      [py "r.pdf"] Sample.three_pages = Ok (parts, t)
    /\ t Pdf.m_text + t Pdf.m_ocr + t Pdf.m_none = 3.
Proof.
  eexists. eexists. split; [reflexivity|].
  apply (@methods_used_counts_every_page
           (Some (Sample.fixed_engine (py "3"))) [py "r.pdf"]
           Sample.three_pages _ _ eq_refl).
Defined.

Lemma process_pages_blocks (OCR : Pdf.ocr_engine) (total : nat)
    (ps : list Pdf.page) (rs : list (pystr * Pdf.method)) :
  Forall2 (fun p r => Pdf.extract_text_from_page OCR p = Ok r) ps rs ->
  forall page_num md_parts t,
  exists t',
    Pdf.process_pages OCR total page_num ps md_parts t
    = Ok (md_parts
          ++ concat (map (fun nr => page_blocks total (fst nr) (fst (snd nr)))
                         (combine (seq page_num (length rs)) rs)), t').
Proof.
  induction 1 as [|p [text tag] ps rs He _ IH]; intros page_num md_parts t.
  - exists t. simpl. now rewrite app_nil_r.
  - erewrite process_pages_cons by exact He.
    destruct (IH (S page_num) (md_parts ++ page_blocks total page_num text)
                 (Pdf.incr t tag)) as [t' Ht'].
    exists t'. rewrite Ht'. simpl. now rewrite <- app_assoc.
Qed.

(** X7: a document all of whose pages extract is assembled as the title
    block followed by the blocks of the pages in page order; a page whose
    text is empty adds nothing, and the pages after it keep their own
    ordinal in the heading. *)
Theorem pages_assembled_in_order (OCR : Pdf.ocr_engine) (input_path : path)
    (doc : Pdf.pdf_doc) (rs : list (pystr * Pdf.method)) :
  Forall2 (fun p r => Pdf.extract_text_from_page OCR p = Ok r)
          (Pdf.pages doc) rs ->
  exists t,
    Pdf.build_md_parts OCR input_path doc
    = Ok (Pdf.header input_path doc
          ++ concat
               (map (fun nr =>
                       page_blocks (length (Pdf.pages doc)) (fst nr)
                                   (fst (snd nr)))
                    (combine (seq 1 (length rs)) rs)), t).
Proof.
  intros H. unfold Pdf.build_md_parts.
  now apply process_pages_blocks.
Qed.

Lemma pages_assembled_in_order_witness :
  exists t,
    Pdf.build_md_parts (Some (Sample.fixed_engine (py "3")))
      [py "r.pdf"] Sample.three_pages
    = Ok ([py "# Annual Report"; py "*Converted from: r.pdf*"; py "---";
           py "## Page 1"; py "one"; py "---";
           py "## Page 3"; py "3"; py "---"], t).
Proof.
  apply (@pages_assembled_in_order
           (Some (Sample.fixed_engine (py "3"))) [py "r.pdf"]
           Sample.three_pages
           [(py "one", Pdf.m_text); ([], Pdf.m_none); (py "3", Pdf.m_ocr)]).
  repeat constructor.
Defined.




(** ** Where the output goes *)



Lemma skipn_length_app {A : Type} (a b : list A) :
  skipn (length a) (a ++ b) = b.
Proof. induction a; simpl; auto. Qed.






(** ** What a batch raises *)






(** ** Slide tables and shapes *)

Lemma escape_pipes_inert (s : pystr) :
  ~ In NL s -> inert (replace PIPE (py "\|") s).
Proof.
  intros Hnl. split.
  - induction s as [|c s IH]; intros escaped; [reflexivity|].
    assert (Hs : ~ In NL s) by (intros H; apply Hnl; now right).
    unfold replace in *. simpl flat_map.
    destruct (N.eqb_spec c PIPE) as [->|Hpipe].
    + simpl. now apply IH.
    + simpl. rewrite (IH Hs).
      apply N.eqb_neq in Hpipe. now rewrite Hpipe.
  - intros H. unfold replace in H. apply in_flat_map in H as [c [Hc H]].
    destruct (c =? PIPE)%N.
    + simpl in H. destruct H as [H|[H|[]]]; discriminate.
    + destruct H as [->|[]]. now apply Hnl.
Qed.

Lemma pptx_table_rows_length (t : Pptx.table) :
  forall row_idx,
    length (Pptx.table_rows_from row_idx t)
    = length t + match t with
                 | [] => 0
                 | _ :: _ => if row_idx =? 0 then 1 else 0
                 end.
Proof.
  induction t as [|row rest IH]; intros row_idx; [reflexivity|].
  change (Pptx.table_rows_from row_idx (row :: rest))
    with (Pptx.table_row_lines row_idx row
          ++ Pptx.table_rows_from (S row_idx) rest).
  rewrite length_app, IH. unfold Pptx.table_row_lines.
  destruct row_idx; destruct rest; simpl; lia.
Qed.

Lemma pptx_table_rows_well_formed (cols : nat) (t : Pptx.table) :
  0 < cols ->
  Forall (fun row => length row = cols
                     /\ Forall (fun cell => ~ In NL (strip cell)) row) t ->
  forall row_idx,
    Forall (fun line => count_delims line = cols + 1 /\ ~ In NL line)
           (Pptx.table_rows_from row_idx t).
Proof.
  intros Hcols Hall. induction Hall as [|row rest [Hlen Hrow] _ IH];
    intros row_idx; [constructor|].
  change (Pptx.table_rows_from row_idx (row :: rest))
    with (Pptx.table_row_lines row_idx row
          ++ Pptx.table_rows_from (S row_idx) rest).
  apply Forall_app. split; [|apply IH].
  unfold Pptx.table_row_lines.
  set (cells := map (fun cell => replace PIPE (py "\|") (strip cell)) row).
  assert (Hcells : length cells = cols).
  { unfold cells. now rewrite length_map. }
  assert (Hinert : Forall inert cells).
  { unfold cells. apply Forall_map.
    eapply Forall_impl; [|exact Hrow].
    intros cell Hcell. now apply escape_pipes_inert. }
  assert (Hne : cells <> []).
  { intros H. rewrite H in Hcells. simpl in Hcells. lia. }
  apply Forall_app. split.
  - constructor; [|constructor]. rewrite <- Hcells at 1.
    now apply row_well_formed.
  - destruct (row_idx =? 0); [|constructor].
    constructor; [|constructor]. rewrite Hcells.
    rewrite <- (repeat_length (py "---") cols) at 2.
    apply row_well_formed.
    + apply Forall_forall. intros c Hc.
      apply repeat_spec in Hc. subst c. apply rule_inert.
    + destruct cols; [lia|discriminate].
Qed.

(** X11: a slide table that has at least one row, the same positive number
    of cells in every row and no line break inside a trimmed cell text
    comes out as one line per row plus the separator line, every line with
    one more delimiting pipe than the table has columns. *)
Theorem pptx_table_well_formed (cols : nat) (t : Pptx.table) :
  0 < cols ->
  t <> [] ->
  Forall (fun row => length row = cols
                     /\ Forall (fun cell => ~ In NL (strip cell)) row) t ->
  length (lines (Pptx.convert_table_to_markdown t)) = length t + 1
  /\ Forall (fun line => count_delims line = cols + 1)
            (lines (Pptx.convert_table_to_markdown t)).
Proof.
  intros Hcols Hne Hall.
  pose proof (pptx_table_rows_well_formed Hcols Hall 0) as Hrows.
  unfold lines, Pptx.convert_table_to_markdown.
  rewrite split_on_join.
  - split.
    + rewrite pptx_table_rows_length. destruct t; [congruence|reflexivity].
    + eapply Forall_impl; [|exact Hrows]. now intros line [H _].
  - intros H. apply (f_equal (@length _)) in H.
    rewrite pptx_table_rows_length in H. destruct t; [congruence|].
    simpl in H. lia.
  - eapply Forall_impl; [|exact Hrows]. now intros line [_ H].
Qed.

Lemma pptx_table_well_formed_witness :
  length (lines (Pptx.convert_table_to_markdown Sample.small_table)) = 2 + 1
  /\ Forall (fun line => count_delims line = 2 + 1)
            (lines (Pptx.convert_table_to_markdown Sample.small_table)).
Proof.
  apply (@pptx_table_well_formed 2 Sample.small_table).
  - lia.
  - discriminate.
  - repeat constructor; vm_compute; intuition discriminate.
Defined.

Lemma convert_table_empty (t : Pptx.table) :
  Pptx.convert_table_to_markdown t = [] <-> t = [].
Proof.
  split; [|now intros ->].
  destruct t as [|row rest]; [reflexivity|]. intros H. exfalso.
  unfold Pptx.convert_table_to_markdown in H.
  change (Pptx.table_rows_from 0 (row :: rest))
    with (Pptx.table_row_lines 0 row ++ Pptx.table_rows_from 1 rest) in H.
  unfold Pptx.table_row_lines in H. simpl app in H.
  match type of H with
  | join _ (?p :: ?l) = _ => destruct (join_head [NL] p l) as [tail Htail]
  end.
  rewrite Htail in H. discriminate.
Qed.

(** X12: a shape adds nothing to the content of its slide exactly when it
    has no text or a blank one and has no table or a table without rows. *)
Theorem shape_adds_nothing (s : Pptx.shape) :
  truthy (Pptx.extract_text_from_shape s) = false
  <-> match Pptx.text s with Some t => strip t = [] | None => True end
      /\ match Pptx.shape_table s with Some t => t = [] | None => True end.
Proof.
  assert (Htruthy : forall x : pystr, truthy x = false <-> x = []).
  { intros [|c x]; simpl; split; congruence. }
  unfold Pptx.extract_text_from_shape.
  destruct (Pptx.text s) as [t|]; destruct (Pptx.shape_table s) as [tb|].
  - destruct (strip t) as [|c st] eqn:Hst; simpl.
    + rewrite Htruthy, convert_table_empty. tauto.
    + split; [discriminate|]. intros [H _]. discriminate.
  - destruct (strip t) as [|c st] eqn:Hst; simpl.
    + tauto.
    + split; [discriminate|]. intros [H _]. discriminate.
  - simpl. rewrite Htruthy, convert_table_empty. tauto.
  - simpl. tauto.
Qed.

Lemma slide_parts_numbered (slides : list Pptx.slide) :
  forall n,
    Pptx.slide_parts n slides
    = concat (map (fun ns => [Pptx.convert_slide_to_markdown (snd ns) (fst ns);
                              py "---"])
                  (combine (seq n (length slides)) slides)).
Proof.
  induction slides as [|sl rest IH]; intros n; [reflexivity|].
  simpl. now rewrite IH.
Qed.

(** X13: the blocks of a deck are the three blocks of the title followed,
    for every slide in deck order, by the block of the slide under its
    position counted from 1 and a rule; a slide with nothing on it is not
    skipped, so a deck of n slides has 3 + 2 n blocks. *)
Theorem deck_blocks_numbered (input_path : path) (prs : Pptx.presentation) :
  skipn 3 (Pptx.build_md_parts input_path prs)
  = concat (map (fun ns => [Pptx.convert_slide_to_markdown (snd ns) (fst ns);
                            py "---"])
                (combine (seq 1 (length prs)) prs))
  /\ length (Pptx.build_md_parts input_path prs) = 3 + 2 * length prs.
Proof.
  unfold Pptx.build_md_parts. split.
  - simpl skipn. apply slide_parts_numbered.
  - assert (Hlen : forall n, length (Pptx.slide_parts n prs)
                              = length prs + length prs).
    { induction prs as [|sl rest IH]; intros n; [reflexivity|].
      simpl. rewrite IH. lia. }
    rewrite length_app, Hlen. simpl. lia.
Qed.

(** ** Worksheet tables *)

(** X14: a cleaned worksheet cell holds no line break, and no pipe of it
    counts as a delimiter, whatever precedes the cell on its line: every
    pipe of the value is escaped and every line break replaced. *)
Theorem clean_cell_value_escapes (v : Xlsx.value) :
  ~ In NL (Xlsx.clean_cell_value v)
  /\ forall escaped,
       count_delims_from escaped (Xlsx.clean_cell_value v) = 0.
Proof.
  destruct (clean_cell_value_inert v) as [Hcount Hnl]. now split.
Qed.

Lemma first_not_none_none (l : list Xlsx.value) :
  forall j, Xlsx.first_not_none j l = None ->
            Forall (fun v => v = Xlsx.VNone) l.
Proof.
  induction l as [|v l IH]; intros j H; [constructor|].
  simpl in H. destruct v; simpl in H; try discriminate.
  constructor; [reflexivity|now apply (IH (S j))].
Qed.

Lemma first_not_none_some (l : list Xlsx.value) :
  forall j i, Xlsx.first_not_none j l = Some i ->
  exists a v b,
    l = a ++ v :: b
    /\ Forall (fun v => v = Xlsx.VNone) a
    /\ Xlsx.is_not_none v = true
    /\ i = j + length a.
Proof.
  induction l as [|v l IH]; intros j i H; [discriminate|].
  simpl in H. destruct (Xlsx.is_not_none v) eqn:Hv.
  - injection H as <-. exists [], v, l.
    split; [reflexivity|]. split; [constructor|]. split; [exact Hv|].
    simpl. lia.
  - destruct (IH _ _ H) as [a [w [b [-> [Ha [Hw ->]]]]]].
    exists (v :: a), w, b.
    split; [reflexivity|]. split; [|split; [exact Hw|simpl; lia]].
    constructor; [|exact Ha]. destruct v; simpl in Hv; congruence.
Qed.

Lemma Forall_skipn {A : Type} (P : A -> Prop) (l : list A) :
  Forall P l -> forall n, Forall P (skipn n l).
Proof.
  induction 1 as [|x l Hx Hl IH]; intros [|n]; simpl; auto.
Qed.

Lemma Forall_skipn_more {A : Type} (P : A -> Prop) (l : list A) (k k' : nat) :
  k <= k' -> Forall P (skipn k l) -> Forall P (skipn k' l).
Proof.
  intros Hle H. replace k' with ((k' - k) + k) by lia.
  rewrite <- skipn_skipn. now apply Forall_skipn.
Qed.

(** Past the column of its last cell that is not null, a row is null. *)
Lemma row_tail_is_none (row : list Xlsx.value) :
  match Xlsx.first_not_none 0 (rev row) with
  | Some i =>
      0 < length row - i
      /\ Forall (fun v => v = Xlsx.VNone) (skipn (length row - i) row)
  | None => Forall (fun v => v = Xlsx.VNone) row
  end.
Proof.
  destruct (Xlsx.first_not_none 0 (rev row)) as [i|] eqn:Hi.
  - destruct (first_not_none_some _ _ Hi) as [a [v [b [Hrev [Ha [_ ->]]]]]].
    apply (f_equal (@rev _)) in Hrev. rewrite rev_involutive in Hrev.
    rewrite rev_app_distr in Hrev. simpl in Hrev.
    rewrite <- app_assoc in Hrev. simpl in Hrev. subst row.
    rewrite length_app. simpl length. rewrite !length_rev.
    replace (length b + S (length a) - (0 + length a)) with (S (length b))
      by lia.
    split; [lia|].
    replace (S (length b)) with (length (rev b ++ [v]))
      by (rewrite length_app, length_rev; simpl; lia).
    change (rev b ++ v :: rev a) with (rev b ++ [v] ++ rev a).
    rewrite app_assoc, skipn_length_app. now apply Forall_rev.
  - apply first_not_none_none in Hi. apply Forall_rev in Hi.
    now rewrite rev_involutive in Hi.
Qed.

Lemma max_cols_from_ge (rows : list (list Xlsx.value)) :
  forall m, m <= Xlsx.max_cols_from m rows.
Proof.
  induction rows as [|row rest IH]; intros m; simpl; [lia|].
  destruct (Xlsx.first_not_none 0 (rev row)) as [i|].
  - specialize (IH (Nat.max m (length row - i))). lia.
  - apply IH.
Qed.

(** X15: cutting the rows at [max_cols] cuts off null cells only: no row
    has a cell that is not null at or past that column. *)
Theorem max_cols_keeps_every_value (rows : list (list Xlsx.value))
    (row : list Xlsx.value) :
  In row rows ->
  Forall (fun v => v = Xlsx.VNone)
         (skipn (Xlsx.max_cols_from 0 rows) row).
Proof.
  generalize 0 as m. induction rows as [|r rest IH]; intros m Hin;
    [destruct Hin|].
  cbn [Xlsx.max_cols_from]. pose proof (row_tail_is_none r) as Hr.
  destruct Hin as [->|Hin].
  - destruct (Xlsx.first_not_none 0 (rev row)) as [i|].
    + destruct Hr as [_ Hr].
      apply Forall_skipn_more with (k := length row - i); [|exact Hr].
      pose proof (max_cols_from_ge rest (Nat.max m (length row - i))). lia.
    + now apply Forall_skipn.
  - destruct (Xlsx.first_not_none 0 (rev r)); now apply IH.
Qed.

Lemma max_cols_keeps_every_value_witness :
  Forall (fun v => v = Xlsx.VNone)
         (skipn (Xlsx.max_cols_from 0 Sample.small_sheet)
                [Xlsx.VStr (py "Item"); Xlsx.VStr (py "Qty"); Xlsx.VNone]).
Proof.
  apply (@max_cols_keeps_every_value Sample.small_sheet).
  left. reflexivity.
Defined.

Lemma exists_not_none (row : list Xlsx.value) :
  existsb Xlsx.is_not_none row = false <->
  Forall (fun v => v = Xlsx.VNone) row.
Proof.
  induction row as [|v row IH]; simpl.
  - split; [constructor|reflexivity].
  - destruct v; simpl; split; try discriminate; try (intros H; now inversion H).
    + intros H. constructor; [reflexivity|now apply IH].
    + intros H. inversion H; subst. now apply IH.
Qed.

Lemma data_rows_nil (sh : Xlsx.sheet) :
  Xlsx.data_rows sh = [] ->
  Forall (Forall (fun v => v = Xlsx.VNone)) sh.
Proof.
  induction sh as [|row sh IH]; intros H; [constructor|].
  unfold Xlsx.data_rows in *. simpl in H.
  destruct (existsb Xlsx.is_not_none row) eqn:Hrow; [discriminate|].
  constructor; [now apply exists_not_none|now apply IH].
Qed.

Lemma max_cols_positive (rows : list (list Xlsx.value)) :
  rows <> [] ->
  Forall (fun row => existsb Xlsx.is_not_none row = true) rows ->
  0 < Xlsx.max_cols_from 0 rows.
Proof.
  intros Hne Hall. destruct rows as [|row rest]; [congruence|].
  inversion Hall as [|? ? Hrow _]; subst. cbn [Xlsx.max_cols_from].
  pose proof (row_tail_is_none row) as Hr.
  destruct (Xlsx.first_not_none 0 (rev row)) as [i|].
  - destruct Hr as [Hpos _].
    pose proof (max_cols_from_ge rest (Nat.max 0 (length row - i))). lia.
  - apply exists_not_none in Hr. congruence.
Qed.

Lemma xlsx_table_starts_with_pipe (max_cols : nat) (r : list Xlsx.value)
    (rs : list (list Xlsx.value)) :
  exists tail,
    join [NL] (Xlsx.table_rows_from max_cols 0 (r :: rs)) = PIPE :: tail.
Proof.
  assert (H : exists p rest,
             Xlsx.table_rows_from max_cols 0 (r :: rs) = (PIPE :: p) :: rest)
    by (eexists; eexists; reflexivity).
  destruct H as [p [rest ->]].
  destruct (join_head [NL] (PIPE :: p) rest) as [tail Htail].
  exists (p ++ tail). exact Htail.
Qed.

Lemma two_blocks_inj (h x y : pystr) :
  join [NL; NL] [h; x] = join [NL; NL] [h; y] -> x = y.
Proof.
  simpl. intros H. apply app_inv_head in H. now injection H.
Qed.

(** X16: a worksheet comes out as the marker "*Empty sheet*" exactly when
    every one of its cells is null; as soon as one cell is not null the
    column count is positive and a table is written. *)
Theorem empty_sheet_iff_all_none (sh : Xlsx.sheet) (sheet_name : pystr) :
  Xlsx.convert_sheet_to_markdown sh sheet_name
  = join [NL; NL] [py "## " ++ sheet_name; py "*Empty sheet*"]
  <-> Forall (Forall (fun v => v = Xlsx.VNone)) sh.
Proof.
  split.
  - intros H. unfold Xlsx.convert_sheet_to_markdown in H.
    destruct sh as [|row sh]; [constructor|].
    destruct (Xlsx.data_rows (row :: sh)) as [|r rs] eqn:Hrows;
      [now apply data_rows_nil|].
    exfalso.
    assert (Hpos : 0 < Xlsx.max_cols_from 0 (r :: rs)).
    { apply max_cols_positive; [discriminate|].
      rewrite <- Hrows. unfold Xlsx.data_rows.
      apply Forall_forall. intros x Hx. now apply filter_In in Hx. }
    set (max_cols := Xlsx.max_cols_from 0 (r :: rs)) in *.
    destruct (Nat.eqb_spec max_cols 0) as [H0|_]; [lia|].
    apply two_blocks_inj in H.
    destruct (xlsx_table_starts_with_pipe max_cols r rs) as [tail Htail].
    rewrite Htail in H. discriminate.
  - intros Hnone. unfold Xlsx.convert_sheet_to_markdown.
    rewrite (data_rows_all_none Hnone). destruct sh; reflexivity.
Qed.

(** ** Workbooks *)

Lemma str_eqb_eq (a b : pystr) : str_eqb a b = true -> a = b.
Proof.
  revert b. induction a as [|x a IH]; intros [|y b] H; simpl in H;
    try discriminate; [reflexivity|].
  apply andb_prop in H as [Hx Hab].
  apply N.eqb_eq in Hx. subst y. f_equal. now apply IH.
Qed.

Lemma getitem_own (wb : Xlsx.workbook) (sheet_name : pystr)
    (obj : Xlsx.sheet_object) :
  NoDup (Xlsx.sheetnames wb) ->
  In (sheet_name, obj) wb ->
  Xlsx.getitem wb sheet_name = Ok obj.
Proof.
  induction wb as [|[n s] rest IH]; intros Hnd Hin; [destruct Hin|].
  inversion Hnd as [|? ? Hfresh Hrest]; subst. simpl.
  destruct Hin as [Heq|Hin].
  - injection Heq as -> ->. now rewrite str_eqb_refl.
  - destruct (str_eqb n sheet_name) eqn:Hn; [|now apply IH].
    apply str_eqb_eq in Hn. subst n. exfalso. apply Hfresh.
    change sheet_name with (fst (sheet_name, obj)). now apply in_map.
Qed.

Lemma getitem_raises (wb : Xlsx.workbook) (sheet_name : pystr) (e : exn) :
  Xlsx.getitem wb sheet_name = Raise e ->
  e = Exception (py "Worksheet does not exist.").
Proof.
  induction wb as [|[n s] rest IH]; simpl; intros H; [congruence|].
  destruct (str_eqb n sheet_name); [discriminate|now apply IH].
Qed.

Lemma sheet_parts_own (wb : Xlsx.workbook) (sub : list (pystr * Xlsx.sheet)) :
  NoDup (Xlsx.sheetnames wb) ->
  incl (map (fun ns => (fst ns, Xlsx.Worksheet (snd ns))) sub) wb ->
  Xlsx.sheet_parts wb (map fst sub)
  = Ok (concat (map (fun ns => [Xlsx.convert_sheet_to_markdown (snd ns) (fst ns);
                                py "---"]) sub)).
Proof.
  intros Hnd. induction sub as [|[n sh] rest IH]; intros Hincl; [reflexivity|].
  simpl.
  rewrite (@getitem_own wb n (Xlsx.Worksheet sh) Hnd)
    by (apply Hincl; now left).
  simpl. rewrite IH by (intros x Hx; apply Hincl; now right).
  reflexivity.
Qed.

Lemma sheet_parts_chart (wb : Xlsx.workbook) (sheet_name : pystr)
    (names : list pystr) :
  Xlsx.getitem wb sheet_name = Ok Xlsx.Chartsheet ->
  In sheet_name names ->
  exists m, Xlsx.sheet_parts wb names = Raise (Exception m).
Proof.
  intros Hchart. induction names as [|n rest IH]; intros Hin; [destruct Hin|].
  cbn [Xlsx.sheet_parts].
  destruct (Xlsx.getitem wb n) as [obj|e] eqn:Hn.
  - cbn [bind]. destruct obj as [rows|].
    + destruct Hin as [->|Hin]; [congruence|].
      destruct (IH Hin) as [m Hm]. exists m.
      unfold Xlsx.convert_sheet_object. simpl. now rewrite Hm.
    + eexists. reflexivity.
  - apply getitem_raises in Hn. subst e. eexists. reflexivity.
Qed.

(** X17: for a workbook whose sheet names are distinct: when every sheet is
    a worksheet, the blocks after the title block are, for every sheet in
    workbook order, the block of that sheet under its own name and a rule;
    when one sheet is a chart sheet, the assembly of the workbook raises an
    [Exception], no block of any sheet being kept. *)
Theorem workbook_blocks (input_path : path) (wb : Xlsx.workbook) :
  NoDup (Xlsx.sheetnames wb) ->
  (forall sheets,
     wb = map (fun ns => (fst ns, Xlsx.Worksheet (snd ns))) sheets ->
     Xlsx.sheet_parts wb (Xlsx.sheetnames wb)
     = Ok (concat
             (map (fun ns =>
                     [Xlsx.convert_sheet_to_markdown (snd ns) (fst ns);
                      py "---"]) sheets)))
  /\ (forall sheet_name,
        In (sheet_name, Xlsx.Chartsheet) wb ->
        exists m,
          Xlsx.build_md_parts input_path wb = Raise (Exception m)).
Proof.
  intros Hnd. split.
  - intros sheets Hwb.
    assert (Hnames : Xlsx.sheetnames wb = map fst sheets).
    { rewrite Hwb. unfold Xlsx.sheetnames. rewrite map_map. reflexivity. }
    rewrite Hnames. apply sheet_parts_own; [exact Hnd|].
    rewrite <- Hwb. intros x Hx. exact Hx.
  - intros sheet_name Hin. unfold Xlsx.build_md_parts.
    destruct (@sheet_parts_chart wb sheet_name (Xlsx.sheetnames wb))
      as [m Hm].
    + now apply getitem_own.
    + change sheet_name with (fst (sheet_name, Xlsx.Chartsheet)).
      now apply in_map.
    + exists m. now rewrite Hm.
Qed.

Lemma workbook_blocks_witness :
  NoDup (Xlsx.sheetnames Sample.with_chart)
  /\ exists m,
       Xlsx.build_md_parts [py "b.xlsx"] Sample.with_chart
       = Raise (Exception m).
Proof.
  assert (Hnd : NoDup (Xlsx.sheetnames Sample.with_chart)).
  { repeat constructor; simpl; intuition discriminate. }
  split; [exact Hnd|].
  destruct (@workbook_blocks [py "b.xlsx"] Sample.with_chart Hnd)
    as [_ Hchart].
  apply (Hchart (py "Chart1")). right. left. reflexivity.
Defined.

(** ** Batches of workbooks *)

Lemma endswith_app (suf s : pystr) :
  endswith suf s = true -> exists pre, s = pre ++ suf.
Proof.
  unfold endswith. intros H. apply andb_prop in H as [_ H].
  apply str_eqb_eq in H.
  exists (firstn (length s - length suf) s).
  rewrite <- H at 2. now rewrite firstn_skipn.
Qed.

Lemma xlsx_convert_each (root : node Xlsx.workbook) (files : list path) :
  (forall f, In f files ->
             Xlsx.convert_xlsx_to_markdown root f None <> Raise Interrupt) ->
  forall converted,
    Xlsx.convert_each root files converted
    = Ok (converted
          ++ flat_map
               (fun f =>
                  match Xlsx.convert_xlsx_to_markdown root f None with
                  | Ok r => [fst r]
                  | Raise _ => []
                  end) files).
Proof.
  induction files as [|f rest IH]; intros Hno converted.
  - simpl. now rewrite app_nil_r.
  - simpl.
    pose proof (Hno f (or_introl eq_refl)) as Hf.
    destruct (Xlsx.convert_xlsx_to_markdown root f None) as [r|[m|]];
      [| |congruence]; simpl.
    + rewrite IH by (intros g Hg; apply Hno; now right).
      now rewrite <- app_assoc.
    + apply IH. intros g Hg. apply Hno. now right.
Qed.

(** X18: a batch of workbooks converts the entries of the directory whose
    name ends with ".xlsx", in enumeration order, and after them those
    whose name ends with ".xls"; no name is in both groups, so no file is
    converted twice; the batch returns the output paths of the files that
    converted, in that order. *)
Theorem xlsx_batch_order :
  (forall name,
     endswith (py ".xlsx") name = true -> endswith (py ".xls") name = false)
  /\ (forall root folder entries,
        lookup root folder = Some (NDir entries) ->
        let xlsx_files :=
          map (fun e => folder ++ [fst e])
              (filter (fun e => endswith (py ".xlsx") (fst e)) entries)
          ++ map (fun e => folder ++ [fst e])
                 (filter (fun e => endswith (py ".xls") (fst e)) entries) in
        (forall f, In f xlsx_files ->
                   Xlsx.convert_xlsx_to_markdown root f None
                   <> Raise Interrupt) ->
        Xlsx.batch_convert root folder
        = Ok (flat_map
                (fun f =>
                   match Xlsx.convert_xlsx_to_markdown root f None with
                   | Ok r => [fst r]
                   | Raise _ => []
                   end) xlsx_files)).
Proof.
  split.
  - intros name Hx.
    destruct (endswith (py ".xls") name) eqn:Hs; [exfalso|reflexivity].
    apply endswith_app in Hx as [pre1 H1].
    apply endswith_app in Hs as [pre2 H2].
    rewrite H1 in H2. apply (f_equal (@rev _)) in H2.
    rewrite !rev_app_distr in H2. simpl in H2. discriminate.
  - intros root folder entries Hdir xlsx_files Hno.
    unfold Xlsx.batch_convert, is_dir, glob. rewrite Hdir. simpl negb.
    cbv iota. subst xlsx_files.
    set (files := map _ _ ++ map _ _) in *.
    destruct files as [|f rest]; [reflexivity|].
    now rewrite xlsx_convert_each.
Qed.

Lemma xlsx_batch_order_witness :
  Xlsx.batch_convert Sample.excel_tree [py "books"]
  = Ok [[py "books"; py "new.md"]; [py "books"; py "more.md"]].
Proof.
  destruct xlsx_batch_order as [_ Hbatch].
  rewrite (Hbatch Sample.excel_tree [py "books"] _ eq_refl); [reflexivity|].
  intros f [<-|[<-|[<-|[<-|[]]]]]; discriminate.
Defined.

(** ** The table of a worksheet *)

Lemma xlsx_table_rows_length (max_cols : nat) (rows : list (list Xlsx.value)) :
  forall row_idx,
    length (Xlsx.table_rows_from max_cols row_idx rows)
    = length rows + match rows with
                    | [] => 0
                    | _ :: _ => if row_idx =? 0 then 1 else 0
                    end.
Proof.
  induction rows as [|row rest IH]; intros row_idx; [reflexivity|].
  change (Xlsx.table_rows_from max_cols row_idx (row :: rest))
    with (Xlsx.table_row_lines max_cols row_idx row
          ++ Xlsx.table_rows_from max_cols (S row_idx) rest).
  rewrite length_app, IH. unfold Xlsx.table_row_lines.
  destruct row_idx; destruct rest; simpl; lia.
Qed.

Lemma xlsx_table_lines_are_rows (max_cols : nat)
    (rows : list (list Xlsx.value)) :
  0 < max_cols ->
  rows <> [] ->
  lines (join [NL] (Xlsx.table_rows_from max_cols 0 rows))
  = Xlsx.table_rows_from max_cols 0 rows.
Proof.
  intros Hpos Hne. unfold lines. apply split_on_join.
  - intros H. apply (f_equal (@length _)) in H.
    rewrite xlsx_table_rows_length in H.
    destruct rows; [congruence|simpl in H; lia].
  - pose proof (xlsx_table_rows_well_formed rows Hpos 0) as Hrows.
    eapply Forall_impl; [|exact Hrows]. now intros line [_ H].
Qed.

(** X19: a worksheet with a cell that is not null comes out as its heading
    and a table that has one line per row kept plus the separator line,
    every line with one more delimiting pipe than the column count, which
    is positive. *)
Theorem worksheet_table_well_formed (sh : Xlsx.sheet) (sheet_name : pystr) :
  Xlsx.data_rows sh <> [] ->
  let rows := Xlsx.data_rows sh in
  let max_cols := Xlsx.max_cols_from 0 rows in
  let table := join [NL] (Xlsx.table_rows_from max_cols 0 rows) in
  Xlsx.convert_sheet_to_markdown sh sheet_name
  = join [NL; NL] [py "## " ++ sheet_name; table]
  /\ 0 < max_cols
  /\ length (lines table) = length rows + 1
  /\ Forall (fun line => count_delims line = max_cols + 1) (lines table).
Proof.
  intros Hne. cbv zeta.
  assert (Hpos : 0 < Xlsx.max_cols_from 0 (Xlsx.data_rows sh)).
  { apply max_cols_positive; [exact Hne|].
    unfold Xlsx.data_rows.
    apply Forall_forall. intros x Hx. now apply filter_In in Hx. }
  rewrite (xlsx_table_lines_are_rows Hpos Hne).
  split; [|split; [exact Hpos|split]].
  - unfold Xlsx.convert_sheet_to_markdown.
    destruct sh as [|row sh]; [now elim Hne|].
    destruct (Xlsx.data_rows (row :: sh)) as [|r rs]; [congruence|].
    destruct (Nat.eqb_spec (Xlsx.max_cols_from 0 (r :: rs)) 0) as [H0|_];
      [lia|reflexivity].
  - rewrite xlsx_table_rows_length.
    destruct (Xlsx.data_rows sh); [congruence|reflexivity].
  - pose proof (xlsx_table_rows_well_formed (Xlsx.data_rows sh) Hpos 0)
      as Hrows.
    eapply Forall_impl; [|exact Hrows]. now intros line [H _].
Qed.

Lemma worksheet_table_well_formed_witness :
  Xlsx.convert_sheet_to_markdown Sample.small_sheet (py "Q1")
  = py "## Q1" ++ [NL; NL]
    ++ py "| Item | Qty |" ++ [NL] ++ py "| --- | --- |" ++ [NL]
    ++ py "| a\|b<br>c | 4 |".
Proof.
  destruct (@worksheet_table_well_formed Sample.small_sheet (py "Q1"))
    as [Hout _]; [discriminate|].
  rewrite Hout. reflexivity.
Defined.

(** X20: a file whose extension is [.xls], in any letter case, is never
    converted: the extension test of the converter lets it through, but the
    library refuses the old format before it opens the file, so the
    conversion raises an [Exception] whatever the file holds. *)
Theorem xls_is_never_converted (root : node Xlsx.workbook)
    (input_path : path) (output_path : option path) :
  str_lower (path_suffix input_path) = py ".xls" ->
  exists m,
    Xlsx.convert_xlsx_to_markdown root input_path output_path
    = Raise (Exception m).
Proof.
  intros Hxls. unfold Xlsx.convert_xlsx_to_markdown.
  destruct (path_exists root input_path); simpl negb; cbv iota;
    [|eexists; reflexivity].
  rewrite Hxls.
  change (negb (str_eqb (py ".xls") (py ".xlsx")
                || str_eqb (py ".xls") (py ".xls"))) with false.
  cbv iota. unfold Xlsx.load_workbook. rewrite Hxls.
  change (negb (existsb (str_eqb (py ".xls")) Xlsx.SUPPORTED_FORMATS))
    with true.
  change (str_eqb (py ".xls") (py ".xls")) with true.
  cbv iota. eexists. reflexivity.
Qed.

Lemma xls_is_never_converted_witness :
  exists m,
    Xlsx.convert_xlsx_to_markdown Sample.excel_tree
      [py "books"; py "old.xls"] None
    = Raise (Exception m).
Proof.
  apply (@xls_is_never_converted Sample.excel_tree
           [py "books"; py "old.xls"] None).
  reflexivity.
Defined.
